(** * URL feature extraction, dataset building, training driver and
      TFLite export: a shallow embedding of

      - [backend/training/train_model.py]   ([featureExtraction],
        [train_and_save_model], the [__main__] block) and
      - [backend/training/convert_to_tflite.py] (the module body).

    The Python code is dynamically typed and reports failure through
    exceptions, so the embedding works over a small universe of Python
    values ([pyval]) and an exception monad ([exc]).  The two standard
    library functions the feature extractor calls, [urllib.parse.urlparse]
    and [ipaddress.ip_address], are embedded as well (after CPython 3.11's
    [Lib/urllib/parse.py] and [Lib/ipaddress.py]), since several properties
    of the extractor depend on what they accept. *)

From Stdlib Require Import ZArith NArith List Ascii String Bool Lia.
From stdpp Require Import gmap strings list.
Import ListNotations.

Local Open Scope Z_scope.

(** ** Python strings, exceptions and values *)

Module Py.

(** A Python [str] is a sequence of Unicode code points; a [bytes] object
    is a sequence of integers below 256. *)
Definition pystr := list N.

Definition pybytes := list N.

(** String literals of the source, as code-point lists. *)
Definition lit (s : string) : pystr :=
  map N_of_ascii (list_ascii_of_string s).

(** The exception classes that the modelled code can raise.
    [AddressValueError] is a subclass of [ValueError]; [OtherError] stands
    for whatever a third-party call (pandas, TensorFlow) raises. *)
Inductive pyexn : Type :=
| ValueError
| AddressValueError
| TypeError
| AttributeError
| KeyError
| UnicodeDecodeError
| UnicodeEncodeError
| FileNotFoundError
| OtherError (name : string).

(** Outcome of running a piece of Python code: a value, or a raised
    exception. *)
Inductive exc (A : Type) : Type :=
| Ok (a : A)
| Raise (e : pyexn).

Arguments Ok {A} a.
Arguments Raise {A} e.

Definition bind {A B : Type} (c : exc A) (k : A -> exc B) : exc B :=
  match c with
  | Ok a => k a
  | Raise e => Raise e
  end.

(** [try: c  except: h] with a bare [except]. *)
Definition try_except {A : Type} (c : exc A) (h : exc A) : exc A :=
  match c with
  | Ok a => Ok a
  | Raise _ => h
  end.

Definition is_ok {A : Type} (c : exc A) : bool :=
  match c with
  | Ok _ => true
  | Raise _ => false
  end.

(** The values a URL cell can hold after [pandas.read_csv], and the other
    scalars a caller can hand to [featureExtraction]: text, bytes, integers,
    the missing-value marker [float('nan')], and [None]. *)
Inductive pyval : Type :=
| PStr (s : pystr)
| PBytes (b : pybytes)
| PInt (z : Z)
| PNaN
| PNone.

(** Truth value of a Python object ([if x]). *)
Definition truthy (v : pyval) : bool :=
  match v with
  | PStr s => negb (Nat.eqb (length s) 0)
  | PBytes b => negb (Nat.eqb (length b) 0)
  | PInt z => negb (z =? 0)
  | PNaN => true
  | PNone => false
  end.

(** *** Operations of [str] *)

(** [len(s)], of a string or of a list. *)
Definition len {A : Type} (s : list A) : Z := Z.of_nat (length s).

Fixpoint str_eqb (s t : pystr) : bool :=
  match s, t with
  | [], [] => true
  | a :: s', b :: t' => (a =? b)%N && str_eqb s' t'
  | _, _ => false
  end.

(** [s.startswith(p)] *)
Fixpoint startswith (p s : pystr) : bool :=
  match p, s with
  | [], _ => true
  | _ :: _, [] => false
  | a :: p', b :: s' => (a =? b)%N && startswith p' s'
  end.

(** [sub in s] *)
Fixpoint contains (sub s : pystr) : bool :=
  startswith sub s ||
  match s with
  | [] => false
  | _ :: s' => contains sub s'
  end.

(** [c in s] for a one-character [c]. *)
Definition has_char (c : N) (s : pystr) : bool := existsb (N.eqb c) s.

Fixpoint find_from (c : N) (s : pystr) (i : Z) : Z :=
  match s with
  | [] => -1
  | a :: s' => if (a =? c)%N then i else find_from c s' (i + 1)
  end.

(** [s.find(c)] for a one-character [c]: the first index, or [-1]. *)
Definition find (c : N) (s : pystr) : Z := find_from c s 0.

(** Start position of a slice bound, as Python clamps it. *)
Definition norm_index (i : Z) (s : pystr) : nat :=
  Z.to_nat (if i <? 0 then Z.max 0 (len s + i) else i).

(** [s[:i]] and [s[i:]] *)
Definition slice_to (i : Z) (s : pystr) : pystr := firstn (norm_index i s) s.

Definition slice_from (i : Z) (s : pystr) : pystr := skipn (norm_index i s) s.

(** [s.find(c, start)] *)
Definition find_at (c : N) (s : pystr) (start : Z) : Z :=
  let k := norm_index start s in
  find_from c (skipn k s) (Z.of_nat k).

Fixpoint rfind_from (c : N) (s : pystr) (i : Z) (last : Z) : Z :=
  match s with
  | [] => last
  | a :: s' => rfind_from c s' (i + 1) (if (a =? c)%N then i else last)
  end.

(** [s.rfind(c)]: the last index, or [-1]. *)
Definition rfind (c : N) (s : pystr) : Z := rfind_from c s 0 (-1).

(** [s.lstrip(chars)], the character set given as a predicate. *)
Fixpoint lstrip (P : N -> bool) (s : pystr) : pystr :=
  match s with
  | [] => []
  | a :: s' => if P a then lstrip P s' else s
  end.

(** [s.replace(c, '')] for a one-character [c]. *)
Definition remove_char (c : N) (s : pystr) : pystr :=
  List.filter (fun a => negb (a =? c)%N) s.

(** [s.split(c)] for a one-character separator [c] (every separator in the
    modelled code is a one-character literal). *)
Fixpoint split_on (c : N) (s : pystr) : list pystr :=
  match s with
  | [] => [[]]
  | a :: s' =>
      if (a =? c)%N then [] :: split_on c s'
      else match split_on c s' with
           | [] => [[a]]
           | seg :: segs => (a :: seg) :: segs
           end
  end.

(** [c.join(segs)] for a one-character [c]. *)
Fixpoint join (c : N) (segs : list pystr) : pystr :=
  match segs with
  | [] => []
  | [seg] => seg
  | seg :: rest => seg ++ c :: join c rest
  end.

(** [s.partition(c)]: text before the first [c], whether [c] was found, text
    after it. *)
Fixpoint partition (c : N) (s : pystr) : pystr * bool * pystr :=
  match s with
  | [] => ([], false, [])
  | a :: s' =>
      if (a =? c)%N then ([], true, s')
      else let '(b, found, r) := partition c s' in (a :: b, found, r)
  end.

(** [s.rpartition(c)]: the same at the last [c]; when [c] is absent the whole
    string is the third component. *)
Definition rpartition (c : N) (s : pystr) : pystr * bool * pystr :=
  let '(b, found, r) := partition c (rev s) in
  if found then (rev r, true, rev b) else ([], false, s).

Definition is_ascii_char (c : N) : bool := (c <? 128)%N.

Definition is_ascii_alpha (c : N) : bool :=
  ((65 <=? c) && (c <=? 90) || (97 <=? c) && (c <=? 122))%N.

Definition is_ascii_digit (c : N) : bool := ((48 <=? c) && (c <=? 57))%N.

(** [s.isascii()] *)
Definition isascii (s : pystr) : bool := forallb is_ascii_char s.

(** [s.lower()] on ASCII text (the only text the modelled code lowers: a
    scheme, whose characters were all checked against [scheme_chars]). *)
Definition lower_char (c : N) : N :=
  if ((65 <=? c) && (c <=? 90))%N then (c + 32)%N else c.

Definition lower (s : pystr) : pystr := map lower_char s.

End Py.

Export Py.

Notation "'let!' x ':=' c 'in' k" :=
  (bind c (fun x => k))
  (at level 10, x pattern, c at level 100, k at level 200).

(** ** [ipaddress.ip_address] *)

Module ipaddress.

(** The two address classes; an IPv6 address carries its optional scope
    (zone) identifier. *)
Inductive address : Type :=
| IPv4Address (ip : Z)
| IPv6Address (ip : Z) (scope_id : option pystr).

Definition is_hex_digit (c : N) : bool :=
  (is_ascii_digit c || (65 <=? c) && (c <=? 70) || (97 <=? c) && (c <=? 102))%N.

Definition digit_value (c : N) : Z :=
  if is_ascii_digit c then Z.of_N c - 48
  else if (c <=? 70)%N then Z.of_N c - 55
  else Z.of_N c - 87.

(** [int(s, base)] on a string of digits of that base. *)
Definition int_of_digits (base : Z) (s : pystr) : Z :=
  fold_left (fun acc c => acc * base + digit_value c) s 0.

(** [int.from_bytes(bs, 'big')] *)
Definition from_bytes_big (bs : list Z) : Z :=
  fold_left (fun acc b => acc * 256 + b) bs 0.

(** Runs [f] over a list from left to right and stops at the first
    exception, as a [map] consumed by its caller does. *)
Fixpoint map_exc {A B : Type} (f : A -> exc B) (l : list A) : exc (list B) :=
  match l with
  | [] => Ok []
  | a :: l' => let! b := f a in let! bs := map_exc f l' in Ok (b :: bs)
  end.

(** [_BaseV4._parse_octet] *)
Definition parse_octet (octet_str : pystr) : exc Z :=
  match octet_str with
  | [] => Raise ValueError
  | c0 :: _ =>
      if negb (isascii octet_str && forallb is_ascii_digit octet_str)
      then Raise ValueError
      else if len octet_str >? 3 then Raise ValueError
      else if negb (str_eqb octet_str (lit "0")) && (c0 =? 48)%N
      then Raise ValueError
      else
        let octet_int := int_of_digits 10 octet_str in
        if octet_int >? 255 then Raise ValueError else Ok octet_int
  end.

(** [_BaseV4._ip_int_from_string]: a [ValueError] of an octet is re-raised
    as [AddressValueError]. *)
Definition v4_ip_int_from_string (ip_str : pystr) : exc Z :=
  match ip_str with
  | [] => Raise AddressValueError
  | _ :: _ =>
      let octets := split_on 46 ip_str in
      if negb (Nat.eqb (length octets) 4) then Raise AddressValueError
      else match map_exc parse_octet octets with
           | Ok ints => Ok (from_bytes_big ints)
           | Raise ValueError => Raise AddressValueError
           | Raise e => Raise e
           end
  end.

(** [IPv4Address(address)] for a [str] argument. *)
Definition IPv4Address_of_str (addr_str : pystr) : exc Z :=
  if has_char 47 addr_str then Raise AddressValueError
  else v4_ip_int_from_string addr_str.

(** [_BaseV6._parse_hextet] *)
Definition parse_hextet (hextet_str : pystr) : exc Z :=
  if negb (forallb is_hex_digit hextet_str) then Raise ValueError
  else if len hextet_str >? 4 then Raise ValueError
  else match hextet_str with
       | [] => Raise ValueError
       | _ :: _ => Ok (int_of_digits 16 hextet_str)
       end.

Definition hex_char (d : Z) : N :=
  if d <? 10 then Z.to_N (48 + d) else Z.to_N (87 + d).

(** ['%x' % n] for [0 <= n <= 0xFFFF]. *)
Definition format_x (n : Z) : pystr :=
  let digits := [n / 4096; (n / 256) mod 16; (n / 16) mod 16; n mod 16] in
  match lstrip (fun c => (c =? 48)%N) (map hex_char digits) with
  | [] => [48%N]
  | s => s
  end.

(** [_BaseV6._split_scope_id] *)
Definition split_scope_id (ip_str : pystr) : exc (pystr * option pystr) :=
  let '(addr, sep, scope_id) := partition 37 ip_str in
  if negb sep then Ok (addr, None)
  else match scope_id with
       | [] => Raise AddressValueError
       | _ :: _ =>
           if has_char 37 scope_id then Raise AddressValueError
           else Ok (addr, Some scope_id)
       end.

(** The loop of [_ip_int_from_string] looking for the one empty part that
    ['::'] leaves among [parts[1:-1]]; [i] is the index of the head of
    [middle] in [parts]. *)
Fixpoint find_skip_index (middle : list pystr) (i : Z)
    (skip_index : option Z) : exc (option Z) :=
  match middle with
  | [] => Ok skip_index
  | p :: rest =>
      match p, skip_index with
      | [], Some _ => Raise AddressValueError
      | [], None => find_skip_index rest (i + 1) (Some i)
      | _ :: _, _ => find_skip_index rest (i + 1) skip_index
      end
  end.

Definition is_empty (s : pystr) : bool :=
  match s with
  | [] => true
  | _ :: _ => false
  end.

Definition HEXTET_COUNT : Z := 8.

(** Second half of [_BaseV6._ip_int_from_string]: from the list of parts
    (an IPv4 suffix already rewritten as two hextets) to the integer. *)
Definition v6_parts_to_int (parts : list pystr) : exc Z :=
  let n := Z.of_nat (length parts) in
  if n >? HEXTET_COUNT + 1 then Raise AddressValueError
  else
    let! skip_index :=
      find_skip_index (firstn (length parts - 2) (skipn 1 parts)) 1 None in
    let first_empty := is_empty (List.hd [] parts) in
    let last_empty := is_empty (List.last parts []) in
    let! counts :=
      match skip_index with
      | Some k =>
          let parts_hi := k in
          let parts_lo := n - k - 1 in
          let! parts_hi :=
            if first_empty
            then if negb (parts_hi - 1 =? 0) then Raise AddressValueError
                 else Ok (parts_hi - 1)
            else Ok parts_hi in
          let! parts_lo :=
            if last_empty
            then if negb (parts_lo - 1 =? 0) then Raise AddressValueError
                 else Ok (parts_lo - 1)
            else Ok parts_lo in
          let parts_skipped := HEXTET_COUNT - (parts_hi + parts_lo) in
          if parts_skipped <? 1 then Raise AddressValueError
          else Ok (parts_hi, parts_lo, parts_skipped)
      | None =>
          if negb (n =? HEXTET_COUNT) then Raise AddressValueError
          else if first_empty then Raise AddressValueError
          else if last_empty then Raise AddressValueError
          else Ok (n, 0, 0)
      end in
    let '(parts_hi, parts_lo, parts_skipped) := counts in
    let shift_in := fun acc h => Z.lor (Z.shiftl acc 16) h in
    match
      (let! hi := map_exc parse_hextet (firstn (Z.to_nat parts_hi) parts) in
       let! lo := map_exc parse_hextet
                    (skipn (Z.to_nat (n - parts_lo)) parts) in
       Ok (fold_left shift_in lo
             (Z.shiftl (fold_left shift_in hi 0) (16 * parts_skipped))))
    with
    | Ok ip_int => Ok ip_int
    | Raise ValueError => Raise AddressValueError
    | Raise e => Raise e
    end.

(** [_BaseV6._ip_int_from_string]: the text is cut at the colons; a last
    part with a dot is read as an IPv4 address and replaced by its two
    hextets. *)
Definition v6_ip_int_from_string (ip_str : pystr) : exc Z :=
  match ip_str with
  | [] => Raise AddressValueError
  | _ :: _ =>
      let parts := split_on 58 ip_str in
      if Z.of_nat (length parts) <? 3 then Raise AddressValueError
      else
        let! parts :=
          if has_char 46 (List.last parts [])
          then match IPv4Address_of_str (List.last parts []) with
               | Ok ipv4_int =>
                   Ok (removelast parts ++
                       [format_x (Z.land (Z.shiftr ipv4_int 16) 65535);
                        format_x (Z.land ipv4_int 65535)])
               | Raise AddressValueError => Raise AddressValueError
               | Raise e => Raise e
               end
          else Ok parts in
        v6_parts_to_int parts
  end.

(** [IPv6Address(address)] for a [str] argument. *)
Definition IPv6Address_of_str (addr_str : pystr) : exc (Z * option pystr) :=
  if has_char 47 addr_str then Raise AddressValueError
  else
    let! split := split_scope_id addr_str in
    let! ip := v6_ip_int_from_string (fst split) in
    Ok (ip, snd split).

(** [str(x)] for the values that are neither [int] nor [bytes]. *)
Definition str_of (v : pyval) : pystr :=
  match v with
  | PStr s => s
  | PNaN => lit "nan"
  | PNone => lit "None"
  | PBytes _ | PInt _ => []
  end.

(** [IPv4Address(address)]: an [int] is range-checked, a [bytes] value must
    be a packed address of 4 bytes, anything else goes through [str]. *)
Definition make_IPv4Address (address : pyval) : exc Z :=
  match address with
  | PInt z =>
      if z <? 0 then Raise AddressValueError
      else if z >? 2 ^ 32 - 1 then Raise AddressValueError
      else Ok z
  | PBytes b =>
      if negb (Nat.eqb (length b) 4) then Raise AddressValueError
      else Ok (from_bytes_big (map Z.of_N b))
  | _ => IPv4Address_of_str (str_of address)
  end.

(** [IPv6Address(address)], likewise with 16 bytes. *)
Definition make_IPv6Address (address : pyval) : exc (Z * option pystr) :=
  match address with
  | PInt z =>
      if z <? 0 then Raise AddressValueError
      else if z >? 2 ^ 128 - 1 then Raise AddressValueError
      else Ok (z, None)
  | PBytes b =>
      if negb (Nat.eqb (length b) 16) then Raise AddressValueError
      else Ok (from_bytes_big (map Z.of_N b), None)
  | _ => IPv6Address_of_str (str_of address)
  end.

(** [ipaddress.ip_address(address)]: IPv4 first, then IPv6; only an
    [AddressValueError] of a constructor is swallowed. *)
Definition ip_address (address : pyval) : exc ipaddress.address :=
  match make_IPv4Address address with
  | Ok ip => Ok (IPv4Address ip)
  | Raise AddressValueError =>
      match make_IPv6Address address with
      | Ok (ip, scope_id) => Ok (IPv6Address ip scope_id)
      | Raise AddressValueError => Raise ValueError
      | Raise e => Raise e
      end
  | Raise e => Raise e
  end.

End ipaddress.

(** ** [urllib.parse.urlparse] *)

Module urllib.

(** A parse result; the six fields are all [str] for a [str] argument and
    all [bytes] otherwise ([ParseResult] / [ParseResultBytes]). *)
Record ParseResult : Type := mkParseResult {
  scheme : pyval;
  netloc : pyval;
  path : pyval;
  params : pyval;
  query : pyval;
  fragment : pyval
}.

(** The same six components while they are still text. *)
Record components : Type := mkComponents {
  c_scheme : pystr;
  c_netloc : pystr;
  c_path : pystr;
  c_params : pystr;
  c_query : pystr;
  c_fragment : pystr
}.

(** [uses_params]; its first entry is the empty scheme. *)
Definition uses_params : list pystr :=
  [] :: map lit ["ftp"; "hdl"; "prospero"; "http"; "imap"; "https"; "shttp";
                 "rtsp"; "rtspu"; "sip"; "sips"; "mms"; "sftp"; "tel"]%string.

(** [scheme_chars]: the characters a scheme may consist of. *)
Definition scheme_chars : pystr :=
  lit "abcdefghijklmnopqrstuvwxyzABCDEFGHIJKLMNOPQRSTUVWXYZ0123456789+-.".

(** Membership in [_WHATWG_C0_CONTROL_OR_SPACE], the code points up to
    U+0020. *)
Definition is_c0_control_or_space (c : N) : bool := (c <=? 32)%N.

(** Tab, carriage return, line feed. *)
Definition UNSAFE_URL_BYTES_TO_REMOVE : list N := [9; 13; 10]%N.

(** [s[a:b]] *)
Definition slice (a b : Z) (s : pystr) : pystr :=
  skipn (norm_index a s) (firstn (norm_index b s) s).

(** [_splitparams] *)
Definition splitparams (url : pystr) : pystr * pystr :=
  if has_char 47 url then
    let i := find_at 59 url (rfind 47 url) in
    if i <? 0 then (url, [])
    else (slice_to i url, slice_from (i + 1) url)
  else
    let i := find 59 url in
    (slice_to i url, slice_from (i + 1) url).

(** [_splitnetloc]: the authority ends at the first of ['/'], ['?'], ['#']. *)
Definition splitnetloc (url : pystr) (start : Z) : pystr * pystr :=
  let delim :=
    fold_left
      (fun delim c =>
         let wdelim := find_at c url start in
         if wdelim >=? 0 then Z.min delim wdelim else delim)
      [47; 63; 35]%N (len url) in
  (slice start delim url, slice_from delim url).

(** The match of [r"\Av[a-fA-F0-9]+\..+\Z"] that [_check_bracketed_host]
    asks of an IPvFuture host: ['v'], hexadecimal digits, a dot, then at
    least one character, none of them a line feed. *)
Fixpoint take_hex (s : pystr) : pystr * pystr :=
  match s with
  | [] => ([], [])
  | c :: s' =>
      if ipaddress.is_hex_digit c
      then let '(h, r) := take_hex s' in (c :: h, r)
      else ([], s)
  end.

Definition ipvfuture_match (hostname : pystr) : bool :=
  match hostname with
  | [] => false
  | v :: rest =>
      (v =? 118)%N &&
      let '(digits, after) := take_hex rest in
      negb (ipaddress.is_empty digits) &&
      match after with
      | [] => false
      | dot :: tail =>
          (dot =? 46)%N && negb (ipaddress.is_empty tail) &&
          forallb (fun c => negb (c =? 10)%N) tail
      end
  end.

(** [_check_bracketed_host] *)
Definition check_bracketed_host (hostname : pystr) : exc unit :=
  if startswith (lit "v") hostname then
    if negb (ipvfuture_match hostname) then Raise ValueError else Ok tt
  else
    let! ip := ipaddress.ip_address (PStr hostname) in
    match ip with
    | ipaddress.IPv4Address _ => Raise ValueError
    | ipaddress.IPv6Address _ _ => Ok tt
    end.

(** [_check_bracketed_netloc] *)
Definition check_bracketed_netloc (netloc : pystr) : exc unit :=
  let '(_, _, hostname_and_port) := rpartition 64 netloc in
  let '(before_bracket, have_open_br, bracketed) :=
    partition 91 hostname_and_port in
  let! hostname :=
    if have_open_br then
      if negb (ipaddress.is_empty before_bracket) then Raise ValueError
      else
        let '(hostname, _, port) := partition 93 bracketed in
        if negb (ipaddress.is_empty port) && negb (startswith (lit ":") port)
        then Raise ValueError
        else Ok hostname
    else
      let '(hostname, _, port) := partition 58 hostname_and_port in
      Ok hostname in
  check_bracketed_host hostname.

(** [_NetlocResultMixinStr._hostinfo]: host name and port text of an
    authority. *)
Definition hostinfo (netloc : pystr) : pystr * option pystr :=
  let '(_, _, hostinfo) := rpartition 64 netloc in
  let '(_, have_open_br, bracketed) := partition 91 hostinfo in
  let '(hostname, port) :=
    if have_open_br then
      let '(hostname, _, port) := partition 93 bracketed in
      let '(_, _, port) := partition 58 port in
      (hostname, port)
    else
      let '(hostname, _, port) := partition 58 hostinfo in
      (hostname, port) in
  (hostname, if ipaddress.is_empty port then None else Some port).

(** The [port] property of a parse result: [None] without a port, the
    port number when the text after the colon is a decimal number in
    range, [ValueError] otherwise.  The source tests [port.isdigit() and
    port.isascii()], which holds exactly for non-empty text of ASCII
    digits. *)
Definition port (netloc : pystr) : exc (option Z) :=
  match snd (hostinfo netloc) with
  | None => Ok None
  | Some p =>
      if forallb is_ascii_digit p && isascii p then
        let n := ipaddress.int_of_digits 10 p in
        if negb ((0 <=? n) && (n <=? 65535)) then Raise ValueError
        else Ok (Some n)
      else Raise ValueError
  end.

Section WithUnicodeData.

(** [unicodedata.normalize('NFKC', _)], a table of the Unicode database;
    only a non-ASCII authority is ever normalised. *)
Variable nfkc : pystr -> pystr.

(** [_checknetloc] *)
Definition checknetloc (netloc : pystr) : exc unit :=
  if ipaddress.is_empty netloc || isascii netloc then Ok tt
  else
    let n := fold_left (fun n c => remove_char c n) [64; 58; 35; 63]%N netloc in
    let netloc2 := nfkc n in
    if str_eqb n netloc2 then Ok tt
    else if existsb (fun c => has_char c netloc2) [47; 63; 35; 64; 58]%N
    then Raise ValueError
    else Ok tt.

(** [urlsplit(url)] on text, with the default [scheme=''] and
    [allow_fragments=True]. *)
Definition urlsplit (url : pystr) : exc components :=
  let url := lstrip is_c0_control_or_space url in
  let url := fold_left (fun u b => remove_char b u) UNSAFE_URL_BYTES_TO_REMOVE url in
  let i := find 58 url in
  let '(scheme, url) :=
    if (i >? 0) && is_ascii_char (List.hd 0%N url) && is_ascii_alpha (List.hd 0%N url)
    then
      if forallb (fun c => has_char c scheme_chars) (slice_to i url)
      then (lower (slice_to i url), slice_from (i + 1) url)
      else ([], url)
    else ([], url) in
  let! nu :=
    if str_eqb (slice_to 2 url) (lit "//") then
      let '(netloc, rest) := splitnetloc url 2 in
      if has_char 91 netloc && negb (has_char 93 netloc)
         || has_char 93 netloc && negb (has_char 91 netloc)
      then Raise ValueError
      else
        let! _ :=
          if has_char 91 netloc && has_char 93 netloc
          then check_bracketed_netloc netloc
          else Ok tt in
        Ok (netloc, rest)
    else Ok ([], url) in
  let '(netloc, url) := nu in
  let '(url, fragment) :=
    if has_char 35 url
    then let '(u, _, f) := partition 35 url in (u, f)
    else (url, []) in
  let '(url, query) :=
    if has_char 63 url
    then let '(u, _, q) := partition 63 url in (u, q)
    else (url, []) in
  let! _ := checknetloc netloc in
  Ok (mkComponents scheme netloc url [] query fragment).

(** [urlparse] on text: [urlsplit], then the parameters of the last path
    segment are split off for the schemes that use them. *)
Definition urlparse_str (url : pystr) : exc components :=
  let! sr := urlsplit url in
  let '(url, params) :=
    if existsb (str_eqb (c_scheme sr)) uses_params && has_char 59 (c_path sr)
    then splitparams (c_path sr)
    else (c_path sr, []) in
  Ok (mkComponents (c_scheme sr) (c_netloc sr) url params
        (c_query sr) (c_fragment sr)).

(** [_decode_args]: [x.decode('ascii', 'strict') if x else ''] for an
    argument that is not a [str]. *)
Definition decode_arg (x : pyval) : exc pystr :=
  if negb (truthy x) then Ok []
  else match x with
       | PBytes b => if isascii b then Ok b else Raise UnicodeDecodeError
       | _ => Raise AttributeError
       end.

(** [x.encode('ascii', 'strict')] *)
Definition encode_ascii (s : pystr) : exc pyval :=
  if isascii s then Ok (PBytes s) else Raise UnicodeEncodeError.

(** [urlparse(url)]: a [str] is parsed as it is; any other argument is
    decoded first and the result encoded back to [bytes]. *)
Definition urlparse (url : pyval) : exc ParseResult :=
  match url with
  | PStr s =>
      let! r := urlparse_str s in
      Ok (mkParseResult (PStr (c_scheme r)) (PStr (c_netloc r))
            (PStr (c_path r)) (PStr (c_params r)) (PStr (c_query r))
            (PStr (c_fragment r)))
  | _ =>
      let! s := decode_arg url in
      let! r := urlparse_str s in
      let! e_scheme := encode_ascii (c_scheme r) in
      let! e_netloc := encode_ascii (c_netloc r) in
      let! e_path := encode_ascii (c_path r) in
      let! e_params := encode_ascii (c_params r) in
      let! e_query := encode_ascii (c_query r) in
      let! e_fragment := encode_ascii (c_fragment r) in
      Ok (mkParseResult e_scheme e_netloc e_path e_params e_query e_fragment)
  end.

End WithUnicodeData.

End urllib.

(** ** Dynamic operations on values and console output *)

(** [len(v)] *)
Definition py_len (v : pyval) : exc Z :=
  match v with
  | PStr s => Ok (len s)
  | PBytes b => Ok (len b)
  | _ => Raise TypeError
  end.

(** [sub in v] for a [str] literal [sub]: a substring test on text; a
    [TypeError] on [bytes] (a bytes-like object is required) and on values
    that are not containers. *)
Definition py_in (sub : pystr) (v : pyval) : exc bool :=
  match v with
  | PStr s => Ok (contains sub s)
  | _ => Raise TypeError
  end.

(** [v.split(c)] for a one-character [str] literal [c]: [bytes.split]
    refuses a [str] separator, and the other values have no [split]. *)
Definition py_split (v : pyval) (c : N) : exc (list pystr) :=
  match v with
  | PStr s => Ok (split_on c s)
  | PBytes _ => Raise TypeError
  | _ => Raise AttributeError
  end.

(** The lines the scripts print. *)
Inductive console_line : Type :=
| FailedToParse (url : pyval)          (* [ERROR] Failed to parse {url} *)
| Metric (name : string)               (* Accuracy / Precision / Recall / F1 *)
| ModelSaved (model_path : pystr)      (* [INFO] Model saved to {model_path} *)
| TrainingFailed                       (* [ERROR] Training failed *)
| TrainingCompleted                    (* [SUCCESS] Model training completed *)
| LoadingModel (p : pystr)             (* [INFO] Loading model from {p} *)
| TFLiteCreated (p : pystr).           (* [INFO] TFLite model created at {p} *)

Definition b2z (b : bool) : Z := if b then 1 else 0.

(** ** [featureExtraction] *)

Section FeatureExtraction.

Variable nfkc : pystr -> pystr.

(** The body of the outer [try]. *)
Definition featureExtraction_try (url : pyval) : exc (list Z) :=
  let! parsed := urllib.urlparse nfkc url in
  let scheme := urllib.scheme parsed in
  let domain := urllib.netloc parsed in
  let path := urllib.path parsed in
  (* 1. domain_length *)
  let! domain_length := py_len domain in
  (* 2. having ip address *)
  let! have_ip :=
    try_except (let! _ := ipaddress.ip_address domain in Ok 1) (Ok 0) in
  (* 3. having @ symbol *)
  let! at_in_url := py_in (lit "@") url in
  let have_at := if at_in_url then 1 else 0 in
  (* 4. url length *)
  let! url_length := py_len url in
  (* 5. url depth *)
  let! segments := py_split path 47 in
  let url_depth :=
    len (List.filter (fun x => negb (str_eqb x [])) segments) in
  (* 6. redirection *)
  let! slashes_in_path := py_in (lit "//") path in
  let redirection := if slashes_in_path then 1 else 0 in
  (* 7. https in domain *)
  let! https_in_scheme := py_in (lit "https") scheme in
  let https_domain := if https_in_scheme then 1 else 0 in
  (* 8. tinyurl *)
  let! tinyurl_in_domain := py_in (lit "tinyurl") domain in
  let! shortener :=
    if tinyurl_in_domain then Ok true else py_in (lit "bit.ly") domain in
  let tiny_url := if shortener then 1 else 0 in
  (* 9. prefix or suffix in domain *)
  let! dash_in_domain := py_in (lit "-") domain in
  let prefix_suffix := if dash_in_domain then 1 else 0 in
  Ok [domain_length; have_ip; have_at; url_length; url_depth;
      redirection; https_domain; tiny_url; prefix_suffix].

(** [featureExtraction(url)]: what it prints and what it returns.  The
    bare [except] turns every exception of the body into one printed line
    and the list [[0]*9]; writing that line to the console is taken to
    succeed. *)
Definition featureExtraction (url : pyval) : list console_line * list Z :=
  match featureExtraction_try url with
  | Ok feats => ([], feats)
  | Raise _ => ([FailedToParse url], repeat 0 9)
  end.

End FeatureExtraction.

(** ** Files, console and the state of a run *)

(** [s.rstrip(chars)] *)
Definition rstrip (P : N -> bool) (s : pystr) : pystr :=
  rev (lstrip P (rev s)).

Module os.

(** The file system a script sees: the directories that exist and the
    bytes of every regular file, both keyed by path. *)
Record filesystem : Type := mkFs {
  dirs : gset pystr;
  files : gmap pystr pybytes
}.

(** [os.path.dirname] (posixpath). *)
Definition dirname (p : pystr) : pystr :=
  let i := rfind 47 p + 1 in
  let head := slice_to i p in
  if negb (ipaddress.is_empty head) && negb (forallb (N.eqb 47) head)
  then rstrip (N.eqb 47) head
  else head.

(** A directory can hold an entry when it exists; the empty name is the
    current directory. *)
Definition dir_exists (fs : filesystem) (d : pystr) : bool :=
  ipaddress.is_empty d || bool_decide (d ∈ dirs fs).

(** The prefixes of [p] that end just before a ['/'], and [p] itself: the
    directories [os.makedirs(p)] has to provide. *)
Fixpoint path_prefixes (before p : pystr) : list pystr :=
  match p with
  | [] => [before]
  | c :: p' =>
      if (c =? 47)%N
      then (if ipaddress.is_empty before then [] else [before])
             ++ path_prefixes (before ++ [c]) p'
      else path_prefixes (before ++ [c]) p'
  end.

(** [os.makedirs(name, exist_ok=True)]: creates the directory and its
    missing ancestors, accepts one that exists already, and fails on the
    empty name or when a regular file is in the way. *)
Definition makedirs (name : pystr) (fs : filesystem) : exc filesystem :=
  match name with
  | [] => Raise FileNotFoundError
  | _ :: _ =>
      let wanted := path_prefixes [] name in
      if existsb (fun d => bool_decide (is_Some (files fs !! d))) wanted
      then Raise (OtherError "FileExistsError")
      else Ok (mkFs (dirs fs ∪ list_to_set wanted) (files fs))
  end.

(** [with open(p, 'wb') as f: f.write(data)]: the parent directory must
    exist and [p] must not be a directory; the file is created or
    replaced. *)
Definition write_file (p : pystr) (data : pybytes) (fs : filesystem)
    : exc filesystem :=
  if negb (dir_exists fs (dirname p)) then Raise FileNotFoundError
  else if bool_decide (p ∈ dirs fs) then Raise (OtherError "IsADirectoryError")
  else Ok (mkFs (dirs fs) (<[p := data]> (files fs))).

(** Reading a regular file. *)
Definition read_file (p : pystr) (fs : filesystem) : exc pybytes :=
  match files fs !! p with
  | Some data => Ok data
  | None => Raise FileNotFoundError
  end.

End os.

(** What a run can change: the file system and the console. *)
Record world : Type := mkWorld {
  fs : os.filesystem;
  stdout : list console_line
}.

(** A statement sequence: it runs in a world, returns or raises, and
    leaves a world behind in both cases. *)
Definition prog (A : Type) : Type := world -> exc A * world.

Definition ret {A : Type} (a : A) : prog A := fun w => (Ok a, w).

Definition raise {A : Type} (e : pyexn) : prog A := fun w => (Raise e, w).

Definition bindP {A B : Type} (c : prog A) (k : A -> prog B) : prog B :=
  fun w =>
    match c w with
    | (Ok a, w') => k a w'
    | (Raise e, w') => (Raise e, w')
    end.

Notation "'do!' x ':=' c 'in' k" :=
  (bindP c (fun x => k))
  (at level 10, x pattern, c at level 100, k at level 200).

(** A call that neither prints nor touches files. *)
Definition pure_call {A : Type} (c : exc A) : prog A := fun w => (c, w).

(** [print(line)] *)
Definition print (line : console_line) : prog unit :=
  fun w => (Ok tt, mkWorld (fs w) (stdout w ++ [line])).

(** A call that changes the file system or fails and leaves it alone. *)
Definition fs_call (op : os.filesystem -> exc os.filesystem) : prog unit :=
  fun w =>
    match op (fs w) with
    | Ok fs' => (Ok tt, mkWorld fs' (stdout w))
    | Raise e => (Raise e, w)
    end.

(** ** Third-party libraries *)

(** A CSV text after tokenising: the header names and the data lines in
    file order, each a list of fields (blank lines are not data lines). *)
Record csv_file : Type := mkCsv {
  header : list pystr;
  records : list (list pystr)
}.

(** What the scripts use of NumPy, pandas, scikit-learn and Keras.  The
    numeric work is opaque; only the exceptions a call may raise and the
    shape of what it returns matter to the control flow. *)
Record third_party : Type := mkThirdParty {
  (* numpy: the element type of a [float32] array and the cast of an [int] *)
  float32 : Type;
  np_float32 : Z -> float32;
  (* pandas: the tokeniser, and the conversion of the cells of one column
     (absent or empty cells are [None]) to values, one per row *)
  csv_tokens : pybytes -> exc csv_file;
  infer_column : list (option pystr) -> list pyval;
  infer_column_length :
    forall cells, length (infer_column cells) = length cells;
  (* scikit-learn *)
  train_test_split :
    list (list float32) -> list pyval ->
    exc (list (list float32) * list (list float32) * list pyval * list pyval);
  precision_score : list pyval -> list Z -> exc float32;
  recall_score : list pyval -> list Z -> exc float32;
  f1_score : list pyval -> list Z -> exc float32;
  (* keras *)
  keras_model : Type;
  history : Type;
  compiled_model : exc keras_model;
  fit : keras_model -> list (list float32) -> list pyval ->
        exc (keras_model * history);
  evaluate : keras_model -> list (list float32) -> list pyval ->
             exc (float32 * float32);
  predict_classes : keras_model -> list (list float32) -> exc (list Z);
  serialize : keras_model -> pybytes;
  deserialize : pybytes -> exc keras_model;
  (* tf.lite *)
  converter : Type;
  from_keras_model : keras_model -> exc converter;
  convert : converter -> exc pybytes
}.

(** A [DataFrame]: the values of every column, by column name. *)
Abbreviation DataFrame := (gmap pystr (list pyval)).

Module pandas.

Section ReadCsv.

Variable L : third_party.

(** Number of fields of a table row.  The first data line is never a bad
    line: when it is longer than the header, its extra leading fields
    become the index and later lines are measured against it. *)
Definition table_width (c : csv_file) : nat :=
  match records c with
  | [] => length (header c)
  | r :: _ => Nat.max (length (header c)) (length r)
  end.

(** [on_bad_lines='skip']: a data line with too many fields is dropped
    and the load goes on; a line with too few is kept and padded. *)
Definition retained (c : csv_file) : list (list pystr) :=
  match records c with
  | [] => []
  | r :: rest =>
      r :: List.filter (fun l => (length l <=? table_width c)%nat) rest
  end.

(** The text of field [j] of a line; a missing or empty field is a
    missing value. *)
Definition cell (r : list pystr) (j : nat) : option pystr :=
  match nth_error r j with
  | Some (c :: t) => Some (c :: t)
  | _ => None
  end.

(** The table of a tokenised text: one column per header name, one value
    per retained line. *)
Definition table (c : csv_file) : DataFrame :=
  let off := (table_width c - length (header c))%nat in
  list_to_map
    (imap (fun j name =>
             (name, infer_column L (map (fun r => cell r (off + j)) (retained c))))
          (header c)).

(** [pd.read_csv(csv_path, on_bad_lines='skip')] *)
Definition read_csv (csv_path : pystr) (fs : os.filesystem) : exc DataFrame :=
  let! text := os.read_file csv_path fs in
  let! c := csv_tokens L text in
  Ok (table c).

End ReadCsv.

(** [df[name]] *)
Definition getitem (df : DataFrame) (name : pystr) : exc (list pyval) :=
  match df !! name with
  | Some column => Ok column
  | None => Raise KeyError
  end.

End pandas.

(** ** [train_and_save_model] and the [__main__] block *)

Section Training.

Variable nfkc : pystr -> pystr.

Variable L : third_party.

(** The call [featureExtraction(url)] inside a run: its output goes to the
    console. *)
Definition call_featureExtraction (url : pyval) : prog (list Z) :=
  fun w =>
    let '(printed, feats) := featureExtraction nfkc url in
    (Ok feats, mkWorld (fs w) (stdout w ++ printed)).

(** The loop [for url in df['url']: feats = featureExtraction(url);
    X.append(feats)]. *)
Fixpoint feature_loop (urls : list pyval) (X : list (list Z))
    : prog (list (list Z)) :=
  match urls with
  | [] => ret X
  | url :: rest =>
      do! feats := call_featureExtraction url in
      feature_loop rest (X ++ [feats])
  end.

(** Step 2 of [train_and_save_model]: the label vector and the feature
    matrix, cast to [float32]. *)
Definition build_dataset (df : DataFrame)
    : prog (list (list (float32 L)) * list pyval) :=
  do! y := pure_call (pandas.getitem df (lit "label")) in
  do! urls := pure_call (pandas.getitem df (lit "url")) in
  do! X := feature_loop urls [] in
  ret (map (map (np_float32 L)) X, y).

(** [model.save(model_path)] for the [.keras] format, whose writer opens
    the target file for writing and creates no directory. *)
Definition model_save (m : keras_model L) (model_path : pystr) : prog unit :=
  fs_call (os.write_file model_path (serialize L m)).

(** [train_and_save_model(csv_path, model_path)]; the value returned is
    the history object, never [None]. *)
Definition train_and_save_model (csv_path model_path : pystr)
    : prog (option (history L)) :=
  (* 1) Read dataset *)
  do! df := (fun w => (pandas.read_csv L csv_path (fs w), w)) in
  (* 2) Build X, y *)
  do! Xy := build_dataset df in
  let '(X, y) := Xy in
  (* 2.1) Split *)
  do! parts := pure_call (train_test_split L X y) in
  let '(X_train, X_test, y_train, y_test) := parts in
  (* 3) Build and compile the model *)
  do! model := pure_call (compiled_model L) in
  (* 4) Train with all data *)
  do! fitted := pure_call (fit L model X y) in
  let '(model, history) := fitted in
  (* 5) Evaluate *)
  do! loss_accuracy := pure_call (evaluate L model X_test y_test) in
  do! y_pred := pure_call (predict_classes L model X_test) in
  do! precision := pure_call (precision_score L y_test y_pred) in
  do! recall := pure_call (recall_score L y_test y_pred) in
  do! f1 := pure_call (f1_score L y_test y_pred) in
  do! _ := print (Metric "Accuracy") in
  do! _ := print (Metric "Precision") in
  do! _ := print (Metric "Recall") in
  do! _ := print (Metric "F1 Score") in
  (* 6) Save final model *)
  do! _ := model_save model model_path in
  do! _ := print (ModelSaved model_path) in
  ret (Some history).

(** The [__main__] block. *)
Definition main : prog unit :=
  do! history :=
    train_and_save_model (lit "data/dataset.csv") (lit "model_save/model.keras") in
  match history with
  | None => print TrainingFailed
  | Some _ => print TrainingCompleted
  end.

End Training.

(** ** [convert_to_tflite.py] *)

Section Convert.

Variable L : third_party.

Definition model_keras_path : pystr := lit "model_save/model.keras".

Definition tflite_output_path : pystr := lit "model_save/model.tflite".

(** [tf.keras.models.load_model(path)] *)
Definition load_model (p : pystr) : prog (keras_model L) :=
  fun w => (let! data := os.read_file p (fs w) in deserialize L data, w).

(** The module body. *)
Definition convert_to_tflite : prog unit :=
  do! _ := print (LoadingModel model_keras_path) in
  do! model := load_model model_keras_path in
  do! converter := pure_call (from_keras_model L model) in
  do! tflite_model := pure_call (convert L converter) in
  do! _ := fs_call (os.makedirs (os.dirname tflite_output_path)) in
  do! _ := fs_call (os.write_file tflite_output_path tflite_model) in
  print (TFLiteCreated tflite_output_path).

End Convert.

(** ** Vocabulary of the statements *)

(** [b] is the 0/1 indicator of [P]. *)
Definition indicator (b : Z) (P : Prop) : Prop :=
  (b = 1 /\ P) \/ (b = 0 /\ ~ P).

(** [sub] occurs in [s] as a contiguous block. *)
Definition substring (sub s : pystr) : Prop :=
  exists l r, s = l ++ sub ++ r.

(** Unicode normalisation leaves ASCII text as it is; this stands in for
    the NFKC table when the model is run on ASCII examples. *)
Definition nfkc_ascii : pystr -> pystr := fun s => s.

(** The fallback vector [[0]*9]. *)
Definition zeros9 : list Z := [0; 0; 0; 0; 0; 0; 0; 0; 0].

(** What the exporter has computed by the time it first touches the file
    system: the saved model loaded, then converted. *)
Definition conversion (L : third_party) (w : world) : exc pybytes :=
  let! data := os.read_file model_keras_path (fs w) in
  let! model := deserialize L data in
  let! converter := from_keras_model L model in
  convert L converter.

(** ** A small instance of the libraries, to run the scripts on examples *)

(** Comma-separated text without quoting: lines at line feeds, blank lines
    skipped, the first line the header. *)
Definition simple_csv_tokens (text : pybytes) : exc csv_file :=
  match List.filter (fun l => negb (ipaddress.is_empty l)) (split_on 10 text) with
  | [] => Raise (OtherError "EmptyDataError")
  | h :: rest => Ok (mkCsv (split_on 44 h) (map (split_on 44) rest))
  end.

(** A column of dtype [object]: text cells stay text, missing cells are
    NaN. *)
Definition object_column (cells : list (option pystr)) : list pyval :=
  map (fun c => match c with Some t => PStr t | None => PNaN end) cells.

(** Libraries whose numeric calls succeed trivially, except [fit], which
    behaves as [fit_outcome] says. *)
Definition demo_libs (fit_outcome : exc unit) : third_party :=
  {| float32 := Z;
     np_float32 := fun z => z;
     csv_tokens := simple_csv_tokens;
     infer_column := object_column;
     infer_column_length := fun cells => length_map _ cells;
     train_test_split := fun X y => Ok (X, X, y, y);
     precision_score := fun _ _ => Ok 1;
     recall_score := fun _ _ => Ok 1;
     f1_score := fun _ _ => Ok 1;
     keras_model := unit;
     history := unit;
     compiled_model := Ok tt;
     fit := fun m _ _ => let! _ := fit_outcome in Ok (m, tt);
     evaluate := fun _ _ _ => Ok (0, 1);
     predict_classes := fun _ X => Ok (map (fun _ => 1) X);
     serialize := fun _ => lit "keras";
     deserialize := fun data =>
       if str_eqb data (lit "keras") then Ok tt else Raise ValueError;
     converter := unit;
     from_keras_model := fun m => Ok m;
     convert := fun _ => Ok (lit "tflite") |}.

(** A working directory that holds [data/dataset.csv] with two rows, one
    of them with a label that is not a number, and no [model_save]
    directory. *)
Definition demo_csv : pybytes :=
  lit "url,label" ++ [10%N] ++ lit "http://a.com/,abc" ++ [10%N] ++
  lit "http://1.2.3.4/login,1" ++ [10%N].

Definition demo_world : world :=
  mkWorld (os.mkFs {[ lit "data" ]} {[ lit "data/dataset.csv" := demo_csv ]}) [].

(** * Properties *)

(** ** Strings *)

Lemma has_char_In (c : N) (s : pystr) : has_char c s = true <-> In c s.
Proof.
  unfold has_char. rewrite existsb_exists. split.
  - intros (x & Hx & Heq). apply N.eqb_eq in Heq. now subst.
  - intros H. exists c. split; [exact H | apply N.eqb_refl].
Qed.

Lemma startswith_app (p s : pystr) :
  startswith p s = true <-> exists r, s = p ++ r.
Proof.
  revert s. induction p as [|a p IH]; intros s; simpl.
  - split; [intros _; now exists s | reflexivity].
  - destruct s as [|b s].
    + split; [discriminate | intros (r & Hr); discriminate].
    + rewrite andb_true_iff, N.eqb_eq, IH. split.
      * intros (-> & r & ->). now exists r.
      * intros (r & Hr). injection Hr as -> ->. split; [reflexivity | now exists r].
Qed.

(** [sub in s] holds exactly when [sub] occurs in [s] as a contiguous
    block. *)
Lemma contains_substring (sub s : pystr) :
  contains sub s = true <-> exists l r, s = l ++ sub ++ r.
Proof.
  induction s as [|b s IH].
  - simpl. rewrite orb_false_r, startswith_app. split.
    + intros (r & Hr). now exists [], r.
    + intros (l & r & H). destruct l; simpl in H.
      * now exists r.
      * discriminate.
  - cbn [contains]. rewrite orb_true_iff, startswith_app, IH. split.
    + intros [(r & Hr) | (l & r & Hr)].
      * now exists [], r.
      * exists (b :: l), r. simpl. now f_equal.
    + intros (l & r & H). destruct l as [|x l]; simpl in H.
      * left. now exists r.
      * right. injection H as _ ->. now exists l, r.
Qed.

Lemma contains_char (c : N) (s : pystr) : contains [c] s = true <-> In c s.
Proof.
  rewrite contains_substring. split.
  - intros (l & r & ->). apply in_or_app. right. now left.
  - intros H. apply in_split in H as (l & r & ->). now exists l, r.
Qed.

Lemma split_on_nonempty (c : N) (s : pystr) : split_on c s <> [].
Proof.
  destruct s as [|a s]; simpl; [discriminate|].
  destruct (a =? c)%N; [discriminate|].
  destruct (split_on c s); discriminate.
Qed.

(** Splitting and joining on the same character are inverse. *)
Lemma join_split_on (c : N) (s : pystr) : join c (split_on c s) = s.
Proof.
  induction s as [|a s IH]; [reflexivity|].
  simpl. destruct (N.eqb_spec a c) as [->|Hne].
  - pose proof (split_on_nonempty c s) as Hn.
    destruct (split_on c s) as [|seg segs] eqn:E; [contradiction|].
    change (join c ([] :: seg :: segs)) with (c :: join c (seg :: segs)).
    now rewrite IH.
  - pose proof (split_on_nonempty c s) as Hn.
    destruct (split_on c s) as [|seg segs] eqn:E; [contradiction|].
    destruct segs as [|seg' segs]; simpl in *; now rewrite <- IH.
Qed.

(** No segment of a split contains the separator. *)
Lemma split_on_no_sep (c : N) (s : pystr) :
  Forall (fun seg => ~ In c seg) (split_on c s).
Proof.
  induction s as [|a s IH]; simpl.
  - constructor; [intros [] | constructor].
  - destruct (N.eqb_spec a c) as [->|Hne].
    + constructor; [intros [] | exact IH].
    + destruct (split_on c s) as [|seg segs]; [repeat constructor; intros [H|[]]; congruence|].
      inversion IH as [|? ? Hseg Hsegs]; subst. constructor; [|exact Hsegs].
      intros [H|H]; [congruence | contradiction].
Qed.

(** The characters of a string are the separator and the characters of the
    segments. *)
Lemma in_split_on (c x : N) (s : pystr) :
  In x s -> x = c \/ exists seg, In seg (split_on c s) /\ In x seg.
Proof.
  induction s as [|a s IH]; [intros []|].
  intros [->|H]; simpl.
  - destruct (N.eqb_spec x c) as [->|Hne]; [now left|]. right.
    destruct (split_on c s) as [|seg segs]; eexists; (split; [now left | now left]).
  - destruct (IH H) as [->|(seg & Hin & Hx)]; [now left|]. right.
    destruct (a =? c)%N.
    + exists seg. split; [now right | exact Hx].
    + destruct (split_on c s) as [|seg0 segs]; [destruct Hin|].
      destruct Hin as [<-|Hin].
      * exists (a :: seg0). split; [now left | now right].
      * exists seg. split; [now right | exact Hx].
Qed.

Lemma split_on_no_sep_single (c : N) (s : pystr) :
  ~ In c s -> split_on c s = [s].
Proof.
  induction s as [|a s IH]; [reflexivity|].
  intros H. simpl. destruct (N.eqb_spec a c) as [->|Hne].
  - exfalso. apply H. now left.
  - rewrite IH; [reflexivity|]. intros Hin. apply H. now right.
Qed.

(** ** The feature extractor *)

Lemma b2z_indicator (b : bool) (P : Prop) :
  (b = true <-> P) -> indicator (b2z b) P.
Proof.
  intros H. destruct b; [left | right]; (split; [reflexivity|]).
  - now apply H.
  - intros HP. apply H in HP. discriminate.
Qed.


(** On text that parses, the body of the [try] runs to its end and
    returns the nine features. *)
Lemma featureExtraction_try_str (nfkc : pystr -> pystr) (u : pystr)
    (r : urllib.components) :
  urllib.urlparse_str nfkc u = Ok r ->
  featureExtraction_try nfkc (PStr u) =
    Ok [len (urllib.c_netloc r);
        b2z (is_ok (ipaddress.ip_address (PStr (urllib.c_netloc r))));
        b2z (contains (lit "@") u);
        len u;
        len (List.filter (fun x => negb (str_eqb x []))
               (split_on 47 (urllib.c_path r)));
        b2z (contains (lit "//") (urllib.c_path r));
        b2z (contains (lit "https") (urllib.c_scheme r));
        b2z (contains (lit "tinyurl") (urllib.c_netloc r)
             || contains (lit "bit.ly") (urllib.c_netloc r));
        b2z (contains (lit "-") (urllib.c_netloc r))].
Proof.
  intros H. unfold featureExtraction_try, urllib.urlparse. rewrite H.
  cbn [bind urllib.scheme urllib.netloc urllib.path py_len py_in py_split].
  destruct (ipaddress.ip_address (PStr (urllib.c_netloc r))) as [a|e];
    cbn [bind try_except is_ok b2z];
    destruct (contains (lit "@") u), (contains (lit "//") (urllib.c_path r)),
      (contains (lit "https") (urllib.c_scheme r)),
      (contains (lit "tinyurl") (urllib.c_netloc r)),
      (contains (lit "bit.ly") (urllib.c_netloc r)),
      (contains (lit "-") (urllib.c_netloc r)); reflexivity.
Qed.

(** Only text reaches the end of the [try] body: on every other value the
    test ["@" in url] (or an earlier step) raises. *)
Lemma featureExtraction_try_ok_str (nfkc : pystr -> pystr) (url : pyval)
    (v : list Z) :
  featureExtraction_try nfkc url = Ok v ->
  exists u r, url = PStr u /\ urllib.urlparse_str nfkc u = Ok r.
Proof.
  intros H. destruct url as [u|b|z| |].
  - exists u. unfold featureExtraction_try, urllib.urlparse in H.
    destruct (urllib.urlparse_str nfkc u) as [r|e]; [now exists r | discriminate].
  - exfalso. unfold featureExtraction_try in H.
    destruct (urllib.urlparse nfkc (PBytes b)) as [p|e]; [|discriminate].
    cbn [bind] in H. destruct (py_len (urllib.netloc p)); [|discriminate].
    cbn [bind] in H.
    destruct (ipaddress.ip_address (urllib.netloc p)); discriminate.
  - exfalso. unfold featureExtraction_try in H.
    destruct (urllib.urlparse nfkc (PInt z)) as [p|e]; [|discriminate].
    cbn [bind] in H. destruct (py_len (urllib.netloc p)); [|discriminate].
    cbn [bind] in H.
    destruct (ipaddress.ip_address (urllib.netloc p)); discriminate.
  - exfalso. unfold featureExtraction_try in H.
    destruct (urllib.urlparse nfkc PNaN) as [p|e]; [|discriminate].
    cbn [bind] in H. destruct (py_len (urllib.netloc p)); [|discriminate].
    cbn [bind] in H.
    destruct (ipaddress.ip_address (urllib.netloc p)); discriminate.
  - exfalso. unfold featureExtraction_try in H.
    destruct (urllib.urlparse nfkc PNone) as [p|e]; [|discriminate].
    cbn [bind] in H. destruct (py_len (urllib.netloc p)); [|discriminate].
    cbn [bind] in H.
    destruct (ipaddress.ip_address (urllib.netloc p)); discriminate.
Qed.

(** The value returned is the vector of the [try] body or the fallback,
    nothing in between. *)
Lemma featureExtraction_cases (nfkc : pystr -> pystr) (url : pyval) :
  (exists v, featureExtraction_try nfkc url = Ok v /\
             featureExtraction nfkc url = ([], v)) \/
  (exists e, featureExtraction_try nfkc url = Raise e /\
             featureExtraction nfkc url = ([FailedToParse url], zeros9)).
Proof.
  unfold featureExtraction.
  destruct (featureExtraction_try nfkc url) as [v|e]; [left | right]; eauto.
Qed.



(** C2.  On a URL string that [urlparse] accepts, the vector returned is
    [domain_length; have_ip; have_at; url_length; url_depth; redirection;
    https_domain; tiny_url; prefix_suffix] in this order, where
    [domain_length] and [url_length] are the lengths of the authority and
    of the raw URL, [url_depth] counts the non-empty segments of the path
    between slashes, and the other six are the indicators of: the
    authority being accepted by [ip_address]; ['@'] occurring in the raw
    URL; ["//"] occurring in the path; ["https"] occurring in the scheme;
    ["tinyurl"] or ["bit.ly"] occurring in the authority; ['-'] occurring
    in the authority. *)
Theorem featureExtraction_features (nfkc : pystr -> pystr) (url : pystr)
    (r : urllib.components) :
  urllib.urlparse_str nfkc url = Ok r ->
  exists have_ip have_at segments redirection https_domain tiny_url
         prefix_suffix,
    snd (featureExtraction nfkc (PStr url)) =
      [len (urllib.c_netloc r); have_ip; have_at; len url;
       len (List.filter (fun seg => negb (ipaddress.is_empty seg)) segments);
       redirection; https_domain; tiny_url; prefix_suffix] /\
    indicator have_ip
      (exists a, ipaddress.ip_address (PStr (urllib.c_netloc r)) = Ok a) /\
    indicator have_at (In 64%N url) /\
    (join 47 segments = urllib.c_path r /\
     segments <> [] /\ Forall (fun seg => ~ In 47%N seg) segments) /\
    indicator redirection (substring (lit "//") (urllib.c_path r)) /\
    indicator https_domain (substring (lit "https") (urllib.c_scheme r)) /\
    indicator tiny_url
      (substring (lit "tinyurl") (urllib.c_netloc r) \/
       substring (lit "bit.ly") (urllib.c_netloc r)) /\
    indicator prefix_suffix (In 45%N (urllib.c_netloc r)).
Proof.
  intros H. unfold featureExtraction.
  rewrite (featureExtraction_try_str _ _ _ H). cbn [snd].
  eexists _, _, (split_on 47 (urllib.c_path r)), _, _, _, _.
  split.
  { rewrite (List.filter_ext (fun x => negb (str_eqb x []))
               (fun seg => negb (ipaddress.is_empty seg)));
      [reflexivity | intros [|c seg]; reflexivity]. }
  split.
  { apply b2z_indicator.
    destruct (ipaddress.ip_address (PStr (urllib.c_netloc r))) as [a|e]; simpl.
    - split; [intros _; now exists a | reflexivity].
    - split; [discriminate | intros (a & Ha); discriminate]. }
  split; [apply b2z_indicator, (contains_char 64)|].
  split.
  { split; [apply join_split_on|].
    split; [apply split_on_nonempty | apply split_on_no_sep]. }
  split; [apply b2z_indicator, contains_substring|].
  split; [apply b2z_indicator, contains_substring|].
  split; [|apply b2z_indicator, (contains_char 45)].
  apply b2z_indicator. rewrite orb_true_iff.
  now rewrite !contains_substring.
Qed.


(** C9.  The empty string is parsed without error (all components
    empty), the [try] body runs to its end with every feature 0, and
    nothing is printed: the all-zero vector is returned on the success
    path. *)
Theorem featureExtraction_empty_string (nfkc : pystr -> pystr) :
  urllib.urlparse nfkc (PStr []) =
    Ok (urllib.mkParseResult (PStr []) (PStr []) (PStr []) (PStr []) (PStr [])
          (PStr [])) /\
  featureExtraction_try nfkc (PStr []) = Ok zeros9 /\
  featureExtraction nfkc (PStr []) = ([], zeros9).
Proof. repeat split; reflexivity. Qed.

(** ** What [ip_address] accepts *)

Lemma map_exc_ok {A B : Type} (f : A -> exc B) (l : list A) (bs : list B) :
  ipaddress.map_exc f l = Ok bs -> Forall (fun a => exists b, f a = Ok b) l.
Proof.
  revert bs. induction l as [|a l IH]; intros bs H; [constructor|].
  simpl in H. destruct (f a) as [b|e] eqn:Ea; [|discriminate].
  cbn [bind] in H. destruct (ipaddress.map_exc f l) as [bs'|e]; [|discriminate].
  constructor; [now exists b | now apply (IH bs')].
Qed.

Lemma parse_octet_ok_digits (s : pystr) (z : Z) :
  ipaddress.parse_octet s = Ok z -> forallb is_ascii_digit s = true.
Proof.
  unfold ipaddress.parse_octet. destruct s as [|c s]; [discriminate|].
  destruct (isascii (c :: s) && forallb is_ascii_digit (c :: s)) eqn:E;
    [|discriminate].
  intros _. now apply andb_true_iff in E.
Qed.

(** A string accepted as an IPv4 address consists of decimal digits and
    dots. *)
Lemma IPv4Address_of_str_chars (s : pystr) (z : Z) :
  ipaddress.IPv4Address_of_str s = Ok z ->
  forall c, In c s -> is_ascii_digit c = true \/ c = 46%N.
Proof.
  unfold ipaddress.IPv4Address_of_str, ipaddress.v4_ip_int_from_string.
  destruct (has_char 47 s); [discriminate|].
  destruct s as [|c0 s0] eqn:Es; [discriminate|]. rewrite <- Es. clear Es c0 s0.
  destruct (negb (length (split_on 46 s) =? 4)%nat); [discriminate|].
  destruct (ipaddress.map_exc ipaddress.parse_octet (split_on 46 s))
    as [ints|e] eqn:E; [|destruct e; discriminate].
  intros _ c Hc. apply map_exc_ok in E.
  destruct (in_split_on 46 c s Hc) as [->|(seg & Hseg & Hin)]; [now right|].
  left. rewrite List.Forall_forall in E. destruct (E seg Hseg) as (b & Hb).
  apply parse_octet_ok_digits in Hb.
  rewrite forallb_forall in Hb. now apply Hb.
Qed.

Lemma parse_hextet_ok_hex (s : pystr) (z : Z) :
  ipaddress.parse_hextet s = Ok z ->
  forallb ipaddress.is_hex_digit s = true.
Proof.
  unfold ipaddress.parse_hextet.
  destruct (forallb ipaddress.is_hex_digit s); [reflexivity | discriminate].
Qed.

Lemma find_skip_index_some (middle : list pystr) (i : Z) (sk : option Z)
    (k : Z) :
  ipaddress.find_skip_index middle i sk = Ok (Some k) ->
  sk = Some k \/
  (i <= k < i + Z.of_nat (length middle) /\
   nth_error middle (Z.to_nat (k - i)) = Some []).
Proof.
  revert i sk. induction middle as [|p rest IH]; intros i sk H; simpl in H.
  - left. congruence.
  - destruct p as [|c p].
    + destruct sk as [j|]; [discriminate|].
      destruct (IH _ _ H) as [Hk|(Hk & Hn)].
      * injection Hk as <-. right. split; [simpl length; lia|].
        now rewrite Z.sub_diag.
      * right. split; [simpl length; lia|].
        replace (Z.to_nat (k - i)) with (S (Z.to_nat (k - (i + 1)))) by lia.
        exact Hn.
    + destruct (IH _ _ H) as [Hk|(Hk & Hn)]; [now left|].
      right. split; [simpl length; lia|].
      replace (Z.to_nat (k - i)) with (S (Z.to_nat (k - (i + 1)))) by lia.
      exact Hn.
Qed.

Lemma nth_error_hd_empty (parts : list pystr) (p : pystr) :
  ipaddress.is_empty (List.hd [] parts) = true ->
  nth_error parts 0 = Some p -> p = [].
Proof.
  destruct parts as [|q parts]; [discriminate|]. simpl.
  intros H [= <-]. now destruct q.
Qed.

Lemma nth_error_last (parts : list pystr) (p : pystr) :
  nth_error parts (length parts - 1) = Some p -> List.last parts [] = p.
Proof.
  induction parts as [|q parts IH]; [discriminate|].
  destruct parts as [|q' parts].
  - simpl. congruence.
  - intros H. change (List.last (q :: q' :: parts) []) with (List.last (q' :: parts) []).
    apply IH. simpl in H. simpl. now rewrite Nat.sub_0_r.
Qed.

Lemma nth_error_last_empty (parts : list pystr) (p : pystr) :
  ipaddress.is_empty (List.last parts []) = true ->
  nth_error parts (length parts - 1) = Some p -> p = [].
Proof.
  intros H Hn. apply nth_error_last in Hn. rewrite Hn in H. now destruct p.
Qed.

Lemma parsed_parts_hex (parts : list pystr) (hi lo : nat) (his los : list Z) :
  ipaddress.map_exc ipaddress.parse_hextet (firstn hi parts) = Ok his ->
  ipaddress.map_exc ipaddress.parse_hextet (skipn lo parts) = Ok los ->
  forall i p, nth_error parts i = Some p -> (i < hi \/ lo <= i)%nat ->
    forallb ipaddress.is_hex_digit p = true.
Proof.
  intros Hhi Hlo i p Hp Hi.
  apply map_exc_ok in Hhi. apply map_exc_ok in Hlo.
  rewrite List.Forall_forall in Hhi, Hlo.
  destruct Hi as [Hi|Hi].
  - destruct (Hhi p) as (z & Hz); [|now apply parse_hextet_ok_hex in Hz].
    apply (nth_error_In _ i). rewrite nth_error_firstn.
    destruct (Nat.ltb_spec i hi); [exact Hp | lia].
  - destruct (Hlo p) as (z & Hz); [|now apply parse_hextet_ok_hex in Hz].
    apply (nth_error_In _ (i - lo)). rewrite nth_error_skipn.
    now replace (lo + (i - lo))%nat with i by lia.
Qed.

(** When the parts of an IPv6 text convert to an integer, every part is
    empty or made of hexadecimal digits. *)
Lemma v6_parts_to_int_hex (parts : list pystr) (z : Z) :
  ipaddress.v6_parts_to_int parts = Ok z ->
  forall i p, nth_error parts i = Some p ->
    p = [] \/ forallb ipaddress.is_hex_digit p = true.
Proof.
  unfold ipaddress.v6_parts_to_int, ipaddress.HEXTET_COUNT.
  set (n := Z.of_nat (length parts)).
  destruct (n >? 8 + 1); [discriminate|].
  destruct (ipaddress.find_skip_index _ 1 None) as [sk|e] eqn:Esk;
    [|discriminate].
  cbn [bind].
  set (first_empty := ipaddress.is_empty (List.hd [] parts)).
  set (last_empty := ipaddress.is_empty (List.last parts [])).
  assert (Hfirst : first_empty = ipaddress.is_empty (List.hd [] parts))
    by reflexivity.
  assert (Hlast : last_empty = ipaddress.is_empty (List.last parts []))
    by reflexivity.
  clearbody first_empty last_empty.
  destruct sk as [k|].
  - apply find_skip_index_some in Esk as [Hk|(Hk & Hnth)]; [discriminate|].
    rewrite length_firstn, length_skipn in Hk.
    rewrite nth_error_firstn, nth_error_skipn in Hnth.
    destruct (Nat.ltb_spec (Z.to_nat (k - 1)) (length parts - 2)) as [Hk2|Hk2];
      [|discriminate].
    replace (1 + Z.to_nat (k - 1))%nat with (Z.to_nat k) in Hnth by lia.
    assert (Hgap : forall hi lo : Z,
              (hi = k \/ first_empty = true /\ hi = 0 /\ k = 1) ->
              (lo = n - k - 1 \/ last_empty = true /\ lo = 0 /\ k = n - 2) ->
              forall i p, nth_error parts i = Some p ->
                (i < Z.to_nat hi \/ Z.to_nat (n - lo) <= i)%nat \/ p = []).
    { intros hi lo Hhi Hlo i p Hp.
      assert (Hlen : (i < length parts)%nat)
        by (apply nth_error_Some; congruence).
      destruct (Z.lt_total (Z.of_nat i) k) as [Hlt|[Heq|Hgt]].
      - destruct Hhi as [->|(Hf & -> & ->)]; [left; left; lia|].
        right. assert (i = 0%nat) as -> by lia.
        rewrite Hfirst in Hf. exact (nth_error_hd_empty _ _ Hf Hp).
      - right. replace (Z.to_nat k) with i in Hnth by lia. congruence.
      - destruct Hlo as [->|(Hl & -> & Hkn)]; [left; right; lia|].
        right. assert (i = (length parts - 1)%nat) as -> by lia.
        rewrite Hlast in Hl. exact (nth_error_last_empty _ _ Hl Hp). }
    clear Hfirst Hlast Hnth.
    intros H.
    assert (Hcounts : exists hi lo sk' : Z,
              (hi = k \/ first_empty = true /\ hi = 0 /\ k = 1) /\
              (lo = n - k - 1 \/ last_empty = true /\ lo = 0 /\ k = n - 2) /\
              match
                (let! his := ipaddress.map_exc ipaddress.parse_hextet
                               (firstn (Z.to_nat hi) parts) in
                 let! los := ipaddress.map_exc ipaddress.parse_hextet
                               (skipn (Z.to_nat (n - lo)) parts) in
                 Ok (fold_left (fun acc h => Z.lor (Z.shiftl acc 16) h) los
                       (Z.shiftl
                          (fold_left (fun acc h => Z.lor (Z.shiftl acc 16) h)
                             his 0) (16 * sk'))))
              with
              | Ok ip_int => Ok ip_int
              | Raise ValueError => Raise AddressValueError
              | Raise e => Raise e
              end = Ok z).
    { destruct first_empty, last_empty; cbv zeta in H; cbn [bind negb] in H;
        repeat match type of H with
        | context [?a =? 0] =>
            destruct (Z.eqb_spec a 0); cbn [negb bind] in H; [|discriminate]
        | context [?a <? 1] =>
            destruct (a <? 1); cbn [bind] in H; [discriminate|]
        end; cbn [bind] in H;
        eexists _, _, _; (split; [|split; [|exact H]]);
        first [ now left | right; repeat split; lia ]. }
    destruct Hcounts as (hi & lo & sk' & Hhi & Hlo & Hrun).
    destruct (ipaddress.map_exc _ (firstn (Z.to_nat hi) parts)) as [his|e] eqn:Ehi;
      [|destruct e; discriminate].
    cbn [bind] in Hrun.
    destruct (ipaddress.map_exc _ (skipn (Z.to_nat (n - lo)) parts)) as [los|e] eqn:Elo;
      [|destruct e; discriminate].
    intros i p Hp.
    destruct (Hgap hi lo Hhi Hlo i p Hp) as [Hi|Hi]; [right | now left].
    exact (parsed_parts_hex _ _ _ _ _ Ehi Elo i p Hp Hi).
  - destruct (negb (n =? 8)) eqn:En; [discriminate|].
    destruct first_empty; [discriminate|].
    destruct last_empty; [discriminate|]. cbn [bind].
    destruct (ipaddress.map_exc _ (firstn (Z.to_nat n) parts)) as [his|e] eqn:Ehi;
      [|destruct e; discriminate].
    cbn [bind].
    destruct (ipaddress.map_exc _ (skipn (Z.to_nat (n - 0)) parts)) as [los|e] eqn:Elo;
      [|destruct e; discriminate].
    intros _ i p Hp. right.
    apply (parsed_parts_hex _ _ _ _ _ Ehi Elo i p Hp). left.
    assert (i < length parts)%nat by (apply nth_error_Some; congruence).
    unfold n. lia.
Qed.

Lemma digit_is_hex (c : N) :
  is_ascii_digit c = true -> ipaddress.is_hex_digit c = true.
Proof. unfold ipaddress.is_hex_digit. now intros ->. Qed.

(** A string accepted by the IPv6 conversion has at least three parts
    between colons and consists of hexadecimal digits, colons and dots. *)
Lemma v6_ip_int_from_string_chars (s : pystr) (z : Z) :
  ipaddress.v6_ip_int_from_string s = Ok z ->
  (3 <= length (split_on 58 s))%nat /\
  forall c, In c s ->
    ipaddress.is_hex_digit c = true \/ c = 58%N \/ c = 46%N.
Proof.
  unfold ipaddress.v6_ip_int_from_string.
  destruct s as [|c0 s0] eqn:Es; [discriminate|]. rewrite <- Es. clear Es c0 s0.
  destruct (Z.ltb_spec (Z.of_nat (length (split_on 58 s))) 3) as [|Hlen];
    [discriminate|].
  intros H. split; [lia|]. intros c Hc.
  destruct (in_split_on 58 c s Hc) as [->|(seg & Hseg & Hin)];
    [right; now left|].
  assert (Hhex : forall parts, ipaddress.v6_parts_to_int parts = Ok z ->
            In seg parts -> ipaddress.is_hex_digit c = true).
  { intros parts Hparts Hsp. apply In_nth_error in Hsp as (i & Hi).
    destruct (v6_parts_to_int_hex _ _ Hparts i seg Hi) as [->|Hall];
      [destruct Hin|].
    rewrite forallb_forall in Hall. now apply Hall. }
  destruct (has_char 46 (List.last (split_on 58 s) [])).
  - destruct (ipaddress.IPv4Address_of_str (List.last (split_on 58 s) []))
      as [ipv4_int|e] eqn:E4; [|destruct e; discriminate].
    cbn [bind] in H.
    rewrite (app_removelast_last [] (split_on_nonempty 58 s)) in Hseg.
    apply in_app_or in Hseg as [Hseg|[<-|[]]].
    + left. apply (Hhex _ H). apply in_or_app. now left.
    + destruct (IPv4Address_of_str_chars _ _ E4 c Hin) as [Hd| ->].
      * left. now apply digit_is_hex.
      * right. now right.
  - cbn [bind] in H. left. exact (Hhex _ H Hseg).
Qed.

Lemma partition_spec (c : N) (s : pystr) :
  ~ In c (fst (fst (partition c s))) /\
  (if snd (fst (partition c s))
   then s = fst (fst (partition c s)) ++ c :: snd (partition c s)
   else fst (fst (partition c s)) = s /\ snd (partition c s) = [] /\ ~ In c s).
Proof.
  induction s as [|a s IH]; simpl.
  - split; [intros [] | repeat split; intros []].
  - destruct (N.eqb_spec a c) as [->|Hne]; simpl.
    + split; [intros [] | reflexivity].
    + destruct (partition c s) as [[b found] r]. simpl in *.
      destruct IH as (Hb & Hs). split; [intros [?|?]; [congruence | contradiction]|].
      destruct found.
      * now rewrite Hs at 1.
      * destruct Hs as (-> & -> & Hn). repeat split.
        intros [?|?]; [congruence | contradiction].
Qed.

Lemma partition_absent (c : N) (s : pystr) :
  ~ In c s -> partition c s = (s, false, []).
Proof.
  induction s as [|a s IH]; [reflexivity|]. intros H. simpl.
  destruct (N.eqb_spec a c) as [->|Hne]; [exfalso; apply H; now left|].
  rewrite IH; [reflexivity|]. intros Hin. apply H. now right.
Qed.

Lemma rpartition_spec (c : N) (s : pystr) :
  if snd (fst (rpartition c s))
  then s = fst (fst (rpartition c s)) ++ c :: snd (rpartition c s)
  else snd (rpartition c s) = s /\ ~ In c s.
Proof.
  unfold rpartition. pose proof (partition_spec c (rev s)) as (Hb & Hs).
  destruct (partition c (rev s)) as [[b found] r]. simpl in *.
  destruct found; simpl.
  - rewrite <- (rev_involutive s), Hs, rev_app_distr. simpl.
    now rewrite <- app_assoc.
  - split; [reflexivity|]. destruct Hs as (_ & _ & Hn).
    intros Hin. apply Hn. now apply in_rev in Hin.
Qed.

Lemma split_on_app_sep (c : N) (h p : pystr) :
  ~ In c h -> split_on c (h ++ c :: p) = h :: split_on c p.
Proof.
  induction h as [|a h IH]; intros Hh; simpl.
  - now rewrite N.eqb_refl.
  - destruct (N.eqb_spec a c) as [->|Hne]; [exfalso; apply Hh; now left|].
    rewrite IH; [reflexivity|]. intros Hin. apply Hh. now right.
Qed.

(** Joining segments that are free of the separator and splitting again
    gives the segments back: the decomposition of a string into such
    segments is unique. *)
Lemma split_on_join (c : N) (segs : list pystr) :
  segs <> [] ->
  Forall (fun seg => ~ In c seg) segs ->
  split_on c (join c segs) = segs.
Proof.
  induction segs as [|seg segs IH]; [contradiction|].
  intros _ Hall. inversion Hall as [|? ? Hseg Hrest]; subst.
  destruct segs as [|seg' segs].
  - simpl. now apply split_on_no_sep_single.
  - change (join c (seg :: seg' :: segs))
      with (seg ++ c :: join c (seg' :: segs)).
    rewrite (split_on_app_sep _ _ _ Hseg). f_equal.
    apply IH; [discriminate | exact Hrest].
Qed.

(** The two ways [ip_address] accepts a string. *)
Lemma ip_address_str_ok (s : pystr) (a : ipaddress.address) :
  ipaddress.ip_address (PStr s) = Ok a ->
  (exists z, ipaddress.IPv4Address_of_str s = Ok z) \/
  (exists r, ipaddress.IPv6Address_of_str s = Ok r).
Proof.
  unfold ipaddress.ip_address.
  cbn [ipaddress.make_IPv4Address ipaddress.make_IPv6Address ipaddress.str_of].
  destruct (ipaddress.IPv4Address_of_str s) as [z|e]; [left; now exists z|].
  destruct (ipaddress.IPv6Address_of_str s) as [r|e']; [right; now exists r|].
  destruct e; try discriminate. destruct e'; discriminate.
Qed.

(** Without a ['%'] there is no scope identifier, and the whole string
    goes to the IPv6 conversion. *)
Lemma IPv6Address_of_str_no_scope (s : pystr) (r : Z * option pystr) :
  ~ In 37%N s ->
  ipaddress.IPv6Address_of_str s = Ok r ->
  ipaddress.v6_ip_int_from_string s = Ok (fst r).
Proof.
  intros Hs. unfold ipaddress.IPv6Address_of_str, ipaddress.split_scope_id.
  destruct (has_char 47 s); [discriminate|].
  rewrite (partition_absent _ _ Hs). cbn [negb bind fst snd].
  destruct (ipaddress.v6_ip_int_from_string s) as [z|e]; [|discriminate].
  cbn [bind]. now intros [= <-].
Qed.

(** The characters of an accepted address without a scope identifier. *)
Lemma ip_address_chars (s : pystr) (a : ipaddress.address) :
  ~ In 37%N s ->
  ipaddress.ip_address (PStr s) = Ok a ->
  (forall c, In c s ->
     ipaddress.is_hex_digit c = true \/ c = 58%N \/ c = 46%N) /\
  (In 58%N s -> (3 <= length (split_on 58 s))%nat).
Proof.
  intros Hs H. apply ip_address_str_ok in H as [(z & H4)|(r & H6)].
  - split.
    + intros c Hc. destruct (IPv4Address_of_str_chars _ _ H4 c Hc) as [Hd| ->].
      * left. now apply digit_is_hex.
      * right. now right.
    + intros Hc. destruct (IPv4Address_of_str_chars _ _ H4 _ Hc); discriminate.
  - apply (IPv6Address_of_str_no_scope _ _ Hs) in H6.
    apply v6_ip_int_from_string_chars in H6 as (Hlen & Hch). now split.
Qed.

(** ** Authorities with a port *)

Lemma digits_no_colon (p : pystr) :
  forallb is_ascii_digit p = true -> ~ In 58%N p.
Proof.
  intros H Hin. rewrite forallb_forall in H. apply H in Hin. discriminate.
Qed.

(** An authority without ['%'] in which [urlparse] sees a port is never
    accepted by [ip_address]. *)
Lemma port_excludes_ip_address (netloc : pystr) (n : Z) :
  ~ In 37%N netloc ->
  urllib.port netloc = Ok (Some n) ->
  is_ok (ipaddress.ip_address (PStr netloc)) = false.
Proof.
  intros Hpc Hport.
  destruct (ipaddress.ip_address (PStr netloc)) as [a|e] eqn:Eip; [|reflexivity].
  exfalso. destruct (ip_address_chars _ _ Hpc Eip) as (Hch & Hlen).
  assert (Hbad : forall c, In c netloc ->
            ipaddress.is_hex_digit c = false -> c <> 58%N -> c <> 46%N -> False).
  { intros c Hc Hh H1 H2. destruct (Hch c Hc) as [?|[?|?]]; congruence. }
  unfold urllib.port, urllib.hostinfo in Hport.
  pose proof (rpartition_spec 64 netloc) as Hr.
  destruct (rpartition 64 netloc) as [[userinfo at_found] hs].
  pose proof (partition_spec 91 hs) as (_ & Hb).
  destruct (partition 91 hs) as [[before have_open_br] bracketed].
  cbn [fst snd] in Hr, Hb.
  assert (Hsub : forall c, In c hs -> In c netloc).
  { intros c Hc. destruct at_found.
    - rewrite Hr. apply in_or_app. right. now right.
    - destruct Hr as (<- & _). exact Hc. }
  destruct have_open_br.
  - apply (Hbad 91%N); [|reflexivity|discriminate|discriminate].
    apply Hsub. rewrite Hb. apply in_or_app. right. now left.
  - clear Hb. pose proof (partition_spec 58 hs) as (Hh & Hp).
    destruct (partition 58 hs) as [[hostname colon] p].
    cbn [fst snd] in Hh, Hp, Hport.
    destruct p as [|d p]; [discriminate|]. cbn [ipaddress.is_empty] in Hport.
    destruct colon; [|now destruct Hp as (_ & ? & _)].
    destruct (forallb is_ascii_digit (d :: p)) eqn:Ed; [|discriminate].
    destruct at_found.
    + apply (Hbad 64%N); [|reflexivity|discriminate|discriminate].
      rewrite Hr. apply in_or_app. right. now left.
    + destruct Hr as (-> & _). subst netloc.
      assert (Hc : In 58%N (hostname ++ 58%N :: d :: p))
        by (apply in_or_app; right; now left).
      apply Hlen in Hc. rewrite (split_on_app_sep _ _ _ Hh) in Hc.
      rewrite (split_on_no_sep_single 58 (d :: p) (digits_no_colon _ Ed)) in Hc.
      simpl in Hc. lia.
Qed.

(** C10, as the code has it.  For every URL that [urlparse] accepts and
    whose authority contains no ['%'] and carries an explicit port,
    [have_ip] is 0, whatever the host part is: [ip_address] is applied to
    the whole authority, port included. *)
Theorem have_ip_zero_with_port (nfkc : pystr -> pystr) (url : pystr)
    (r : urllib.components) (n : Z) :
  urllib.urlparse_str nfkc url = Ok r ->
  ~ In 37%N (urllib.c_netloc r) ->
  urllib.port (urllib.c_netloc r) = Ok (Some n) ->
  nth 1 (snd (featureExtraction nfkc (PStr url))) 0 = 0.
Proof.
  intros Hr Hpc Hport. unfold featureExtraction.
  rewrite (featureExtraction_try_str _ _ _ Hr). cbn [snd nth].
  now rewrite (port_excludes_ip_address _ _ Hpc Hport).
Qed.

Lemma have_ip_zero_with_port_witness :
  urllib.urlparse_str nfkc_ascii (lit "http://1.2.3.4:80/") =
    Ok (urllib.mkComponents (lit "http") (lit "1.2.3.4:80") (lit "/") [] [] []) /\
  ~ In 37%N (lit "1.2.3.4:80") /\
  urllib.port (lit "1.2.3.4:80") = Ok (Some 80) /\
  ipaddress.ip_address (PStr (lit "1.2.3.4")) =
    Ok (ipaddress.IPv4Address 16909060) /\
  nth 1 (snd (featureExtraction nfkc_ascii (PStr (lit "http://1.2.3.4:80/")))) 0 = 0.
Proof.
  assert (Hp : urllib.urlparse_str nfkc_ascii (lit "http://1.2.3.4:80/") =
    Ok (urllib.mkComponents (lit "http") (lit "1.2.3.4:80") (lit "/") [] [] []))
    by (vm_compute; reflexivity).
  assert (Hc : ~ In 37%N (urllib.c_netloc
            (urllib.mkComponents (lit "http") (lit "1.2.3.4:80") (lit "/") [] [] []))).
  { rewrite <- has_char_In. vm_compute. discriminate. }
  split; [exact Hp|]. split; [exact Hc|].
  split; [vm_compute; reflexivity|]. split; [vm_compute; reflexivity|].
  apply (have_ip_zero_with_port nfkc_ascii _ _ 80 Hp Hc).
  vm_compute. reflexivity.
Defined.

(** C10 as stated fails: in ["http://1::2%x@1.2.3.4:80/"] the parser sees
    host [1.2.3.4] (a valid IPv4 literal) and port 80, yet the whole
    authority ["1::2%x@1.2.3.4:80"] is accepted by [ip_address] as the
    IPv6 address [1::2] with scope identifier ["x@1.2.3.4:80"], so
    [have_ip] is 1. *)
Lemma have_ip_with_port_counterexample :
  (forall nfkc,
     urllib.urlparse_str nfkc (lit "http://1::2%x@1.2.3.4:80/") =
       Ok (urllib.mkComponents (lit "http") (lit "1::2%x@1.2.3.4:80")
             (lit "/") [] [] [])) /\
  urllib.hostinfo (lit "1::2%x@1.2.3.4:80") = (lit "1.2.3.4", Some (lit "80")) /\
  urllib.port (lit "1::2%x@1.2.3.4:80") = Ok (Some 80) /\
  ipaddress.ip_address (PStr (lit "1.2.3.4")) =
    Ok (ipaddress.IPv4Address 16909060) /\
  ipaddress.ip_address (PStr (lit "1::2%x@1.2.3.4:80")) =
    Ok (ipaddress.IPv6Address 5192296858534827628530496329220098
          (Some (lit "x@1.2.3.4:80"))) /\
  (forall nfkc,
     snd (featureExtraction nfkc (PStr (lit "http://1::2%x@1.2.3.4:80/"))) =
       [17; 1; 1; 25; 0; 0; 0; 0; 0]).
Proof.
  repeat split; try intros nfkc; vm_compute; reflexivity.
Qed.

(** ** The dataset builder *)

(** The loop appends one feature vector per URL, in order, and sends what
    [featureExtraction] prints to the console. *)
Lemma feature_loop_spec (nfkc : pystr -> pystr) (urls : list pyval) :
  forall (X : list (list Z)) (w : world),
    feature_loop nfkc urls X w =
      (Ok (X ++ map (fun url => snd (featureExtraction nfkc url)) urls),
       mkWorld (fs w)
         (stdout w ++
          concat (map (fun url => fst (featureExtraction nfkc url)) urls))).
Proof.
  induction urls as [|url urls IH]; intros X w.
  - simpl. unfold ret. rewrite !app_nil_r. now destruct w.
  - cbn [feature_loop]. unfold bindP, call_featureExtraction.
    destruct (featureExtraction nfkc url) as [printed feats] eqn:E.
    rewrite IH. cbn [fs stdout map concat fst snd]. rewrite E. cbn [fst snd].
    now rewrite <- !app_assoc.
Qed.

Lemma build_dataset_spec (nfkc : pystr -> pystr) (L : third_party)
    (df : DataFrame) (urls labels : list pyval) (w : world) :
  df !! lit "url" = Some urls ->
  df !! lit "label" = Some labels ->
  build_dataset nfkc L df w =
    (Ok (map (fun url => map (np_float32 L) (snd (featureExtraction nfkc url)))
           urls, labels),
     mkWorld (fs w)
       (stdout w ++
        concat (map (fun url => fst (featureExtraction nfkc url)) urls))).
Proof.
  intros Hu Hl. unfold build_dataset, bindP, pure_call, pandas.getitem, ret.
  rewrite Hl, Hu, feature_loop_spec. cbn [app]. now rewrite map_map.
Qed.

(** Whatever the table holds, building the dataset leaves the files
    alone. *)
Lemma build_dataset_fs (nfkc : pystr -> pystr) (L : third_party)
    (df : DataFrame) (w : world) :
  fs (snd (build_dataset nfkc L df w)) = fs w.
Proof.
  unfold build_dataset, bindP, pure_call, pandas.getitem, ret.
  destruct (df !! lit "label"); [|reflexivity].
  destruct (df !! lit "url"); [|reflexivity].
  now rewrite feature_loop_spec.
Qed.

(** C4.  For every table with a [url] and a [label] column, the dataset
    builder returns the label column as it is (no check that a label is 0
    or 1) and a matrix with one row per URL, in the order of the table:
    row [i] is the feature vector of the [i]-th URL, its entries cast to
    [float32]. *)
Theorem build_dataset_rows (nfkc : pystr -> pystr) (L : third_party)
    (df : DataFrame) (urls labels : list pyval) (w : world) :
  df !! lit "url" = Some urls ->
  df !! lit "label" = Some labels ->
  exists X w',
    build_dataset nfkc L df w = (Ok (X, labels), w') /\
    length X = length urls /\
    forall i url, nth_error urls i = Some url ->
      nth_error X i =
        Some (map (np_float32 L) (snd (featureExtraction nfkc url))).
Proof.
  intros Hu Hl. eexists _, _. split; [exact (build_dataset_spec _ _ _ _ _ _ Hu Hl)|].
  split; [apply length_map|].
  intros i url Hi. now rewrite nth_error_map, Hi.
Qed.

Lemma build_dataset_rows_witness :
  let df : DataFrame :=
    <[lit "url" := [PStr (lit "http://b.com/x"); PNaN]]>
      (<[lit "label" := [PInt 7; PStr (lit "spam")]]> ∅) in
  df !! lit "url" = Some [PStr (lit "http://b.com/x"); PNaN] /\
  df !! lit "label" = Some [PInt 7; PStr (lit "spam")] /\
  exists X w',
    build_dataset nfkc_ascii (demo_libs (Ok tt)) df demo_world =
      (Ok (X, [PInt 7; PStr (lit "spam")]), w') /\
    length X = 2%nat /\
    forall i url, nth_error [PStr (lit "http://b.com/x"); PNaN] i = Some url ->
      nth_error X i = Some (snd (featureExtraction nfkc_ascii url)).
Proof.
  intros df.
  assert (Hu : df !! lit "url" = Some [PStr (lit "http://b.com/x"); PNaN])
    by (vm_compute; reflexivity).
  assert (Hl : df !! lit "label" = Some [PInt 7; PStr (lit "spam")])
    by (vm_compute; reflexivity).
  split; [exact Hu|]. split; [exact Hl|].
  destruct (build_dataset_rows nfkc_ascii (demo_libs (Ok tt)) df _ _
              demo_world Hu Hl) as (X & w' & Hrun & Hlen & Hrows).
  exists X, w'. split; [exact Hrun|]. split; [exact Hlen|].
  intros i url Hi. rewrite (Hrows i url Hi). cbn [np_float32 demo_libs].
  now rewrite map_id.
Defined.

(** ** Loading the table *)

Lemma table_header_names (L : third_party) (c : csv_file) :
  (imap (fun j name =>
           (name,
            infer_column L
              (map (fun r => pandas.cell r
                               (pandas.table_width c - length (header c) + j))
                 (pandas.retained c))))
        (header c)).*1 = header c.
Proof.
  rewrite fmap_imap. unfold compose. cbn [fst].
  rewrite (imap_const (fun name : pystr => name)). apply list_fmap_id.
Qed.

(** A column named in the header is in the table, with one value per
    retained line. *)
Lemma table_lookup_header (L : third_party) (c : csv_file) (name : pystr) :
  In name (header c) ->
  exists column,
    pandas.table L c !! name = Some column /\
    length column = length (pandas.retained c).
Proof.
  intros Hin. unfold pandas.table.
  destruct (list_to_map _ !! name) as [column|] eqn:E.
  - exists column. split; [reflexivity|].
    apply elem_of_list_to_map_2 in E.
    apply elem_of_lookup_imap in E as (j & y & Heq & _).
    injection Heq as _ ->. now rewrite infer_column_length, length_map.
  - exfalso. apply not_elem_of_list_to_map_2 in E. apply E.
    rewrite table_header_names. now apply list_elem_of_In.
Qed.

Lemma table_lookup_absent (L : third_party) (c : csv_file) (name : pystr) :
  ~ In name (header c) -> pandas.table L c !! name = None.
Proof.
  intros Hn. unfold pandas.table. apply not_elem_of_list_to_map_1.
  rewrite table_header_names. intros H. apply Hn. now apply list_elem_of_In.
Qed.

(** On data lines no longer than the header, only what is too long for
    the table is dropped. *)
Lemma retained_in (c : csv_file) (r : list pystr) :
  In r (records c) ->
  (length r <= length (header c))%nat ->
  In r (pandas.retained c).
Proof.
  unfold pandas.retained, pandas.table_width.
  destruct (records c) as [|r0 rest]; [intros []|].
  intros [->|Hin] Hlen; [now left|]. right.
  apply List.filter_In. split; [exact Hin|].
  apply Nat.leb_le. lia.
Qed.

(** C5, as the code has it.  The load drops a data line only for having
    too many fields; every line that fits the header is kept, whatever its
    label or url field holds.  With a [label] column, a [url] column
    makes the builder return a matrix and a label vector with exactly one
    row per retained line, and without a [url] column the run aborts with
    [KeyError]. *)
Theorem dataset_row_count (nfkc : pystr -> pystr) (L : third_party)
    (c : csv_file) (w : world) :
  In (lit "label") (header c) ->
  (forall r, In r (records c) -> (length r <= length (header c))%nat ->
     In r (pandas.retained c)) /\
  (In (lit "url") (header c) ->
     exists X y w',
       build_dataset nfkc L (pandas.table L c) w = (Ok (X, y), w') /\
       length X = length (pandas.retained c) /\
       length y = length (pandas.retained c)) /\
  (~ In (lit "url") (header c) ->
     fst (build_dataset nfkc L (pandas.table L c) w) = Raise KeyError).
Proof.
  intros Hlabel. split; [apply retained_in|].
  destruct (table_lookup_header L c _ Hlabel) as (labels & Hl & Hll).
  split.
  - intros Hurl.
    destruct (table_lookup_header L c _ Hurl) as (urls & Hu & Hlu).
    eexists _, labels, _.
    split; [exact (build_dataset_spec _ _ _ _ _ _ Hu Hl)|].
    now rewrite length_map.
  - intros Hurl. apply (table_lookup_absent L) in Hurl.
    unfold build_dataset, bindP, pure_call, pandas.getitem.
    now rewrite Hl, Hurl.
Qed.

Lemma dataset_row_count_witness :
  let c := mkCsv [lit "url"; lit "label"]
             [[lit "http://a.com/"; lit "abc"]; [[]; lit "1"];
              [lit "http://b.com/"; lit "0"; lit "extra"]] in
  In (lit "label") (header c) /\
  pandas.retained c = [[lit "http://a.com/"; lit "abc"]; [[]; lit "1"]] /\
  (forall r, In r (records c) -> (length r <= length (header c))%nat ->
     In r (pandas.retained c)) /\
  (In (lit "url") (header c) ->
     exists X y w',
       build_dataset nfkc_ascii (demo_libs (Ok tt))
         (pandas.table (demo_libs (Ok tt)) c) demo_world = (Ok (X, y), w') /\
       length X = length (pandas.retained c) /\
       length y = length (pandas.retained c)) /\
  (~ In (lit "url") (header c) ->
     fst (build_dataset nfkc_ascii (demo_libs (Ok tt))
            (pandas.table (demo_libs (Ok tt)) c) demo_world) = Raise KeyError).
Proof.
  intros c.
  assert (Hl : In (lit "label") (header c)) by (right; now left).
  split; [exact Hl|]. split; [reflexivity|].
  exact (dataset_row_count nfkc_ascii (demo_libs (Ok tt)) c demo_world Hl).
Defined.

(** C5 as stated fails.  In a table with the columns [url] and [label],
    the line whose label is the text ["abc"] and the line whose url field
    is empty both stay in the dataset: the matrix has two rows (the second
    one the all-zero fallback) and the labels come through as they are;
    only the line with a field too many is dropped.  And when the header
    has no [url] column the builder does not go on without it: it raises
    [KeyError]. *)
Lemma dataset_rows_counterexample :
  (forall nfkc w,
     build_dataset nfkc (demo_libs (Ok tt))
       (pandas.table (demo_libs (Ok tt))
          (mkCsv [lit "url"; lit "label"]
             [[lit "http://a.com/"; lit "abc"]; [[]; lit "1"];
              [lit "http://b.com/"; lit "0"; lit "extra"]])) w =
       (Ok ([[5; 0; 0; 13; 0; 0; 0; 0; 0]; [0; 0; 0; 0; 0; 0; 0; 0; 0]],
            [PStr (lit "abc"); PStr (lit "1")]),
        mkWorld (fs w) (stdout w ++ [FailedToParse PNaN]))) /\
  (forall nfkc w,
     build_dataset nfkc (demo_libs (Ok tt))
       (pandas.table (demo_libs (Ok tt))
          (mkCsv [lit "link"; lit "label"]
             [[lit "http://a.com/"; lit "1"]])) w =
       (Raise KeyError, w)).
Proof.
  split; intros nfkc w.
  - rewrite (build_dataset_spec nfkc (demo_libs (Ok tt)) _
               [PStr (lit "http://a.com/"); PNaN]
               [PStr (lit "abc"); PStr (lit "1")]);
      [|vm_compute; reflexivity|vm_compute; reflexivity].
    f_equal.
  - unfold build_dataset, bindP, pure_call, pandas.getitem.
    replace (pandas.table _ _ !! lit "label")
      with (Some [PStr (lit "1")]) by (vm_compute; reflexivity).
    replace (pandas.table _ _ !! lit "url")
      with (@None (list pyval)) by (vm_compute; reflexivity).
    reflexivity.
Qed.

(** ** The training run *)

(** A run of [train_and_save_model] ends in one of two ways: an exception,
    with the files as they were; or the history, after the model file was
    written by the one write of step 6 into the file system the run
    started with. *)
Lemma train_run_cases (nfkc : pystr -> pystr) (L : third_party)
    (csv_path model_path : pystr) (w : world) :
  (exists e w',
     train_and_save_model nfkc L csv_path model_path w = (Raise e, w') /\
     fs w' = fs w) \/
  (exists h m fs' w',
     train_and_save_model nfkc L csv_path model_path w = (Ok (Some h), w') /\
     fs w' = fs' /\
     os.write_file model_path (serialize L m) (fs w) = Ok fs').
Proof.
  unfold train_and_save_model, bindP.
  destruct (pandas.read_csv L csv_path (fs w)) as [df|e]; [|left; eauto].
  pose proof (build_dataset_fs nfkc L df w) as Hfs.
  destruct (build_dataset nfkc L df w) as [[[X y]|e] w1]; cbn [snd] in Hfs;
    [|left; eauto].
  unfold pure_call.
  destruct (train_test_split L X y) as [[[[X_train X_test] y_train] y_test]|e];
    [|left; eauto].
  destruct (compiled_model L) as [m0|e]; [|left; eauto].
  destruct (fit L m0 X y) as [[m h]|e]; [|left; eauto].
  destruct (evaluate L m X_test y_test) as [la|e]; [|left; eauto].
  destruct (predict_classes L m X_test) as [y_pred|e]; [|left; eauto].
  destruct (precision_score L y_test y_pred) as [p|e]; [|left; eauto].
  destruct (recall_score L y_test y_pred) as [rc|e]; [|left; eauto].
  destruct (f1_score L y_test y_pred) as [f|e]; [|left; eauto].
  unfold print, model_save, fs_call, ret. cbn [fs stdout]. rewrite Hfs.
  destruct (os.write_file model_path (serialize L m) (fs w)) as [fs'|e] eqn:Ew.
  - right. exists h, m, fs'. eexists. split; [reflexivity|].
    split; [reflexivity | exact Ew].
  - left. eexists _, _. split; reflexivity.
Qed.



(** The default run of the [__main__] block in a directory without
    [model_save]: training goes through, then saving raises
    [FileNotFoundError]; no directory and no file has been created. *)
Lemma main_without_model_save_directory :
  fst (main nfkc_ascii (demo_libs (Ok tt)) demo_world) = Raise FileNotFoundError /\
  fs (snd (main nfkc_ascii (demo_libs (Ok tt)) demo_world)) = fs demo_world /\
  stdout (snd (main nfkc_ascii (demo_libs (Ok tt)) demo_world)) =
    [Metric "Accuracy"; Metric "Precision"; Metric "Recall"; Metric "F1 Score"].
Proof. repeat split; vm_compute; reflexivity. Qed.

(** C7 fails on the code.  [train_and_save_model] never returns [None]:
    a run ends with the history object or with an exception.  So the
    [__main__] block either prints its success line or is left by that
    exception before it prints anything; its test [history is None] never
    holds and the line [TrainingFailed] is never printed by it. *)
Theorem train_and_save_model_never_returns_None (nfkc : pystr -> pystr)
    (L : third_party) (w : world) :
  match train_and_save_model nfkc L (lit "data/dataset.csv")
          (lit "model_save/model.keras") w with
  | (Raise e, w') => main nfkc L w = (Raise e, w')
  | (Ok (Some h), w') =>
      main nfkc L w = (Ok tt, mkWorld (fs w') (stdout w' ++ [TrainingCompleted]))
  | (Ok None, _) => False
  end.
Proof.
  unfold main, bindP.
  destruct (train_run_cases nfkc L (lit "data/dataset.csv")
              (lit "model_save/model.keras") w)
    as [(e & w' & -> & _)|(h & m & fs' & w' & -> & _ & _)]; reflexivity.
Qed.

(** A run whose [fit] call fails: the exception leaves
    [train_and_save_model] and the [__main__] block as it is, and nothing
    is printed. *)
Lemma main_when_fit_fails :
  train_and_save_model nfkc_ascii
    (demo_libs (Raise (OtherError "InvalidArgumentError")))
    (lit "data/dataset.csv") (lit "model_save/model.keras") demo_world =
    (Raise (OtherError "InvalidArgumentError"), demo_world) /\
  main nfkc_ascii (demo_libs (Raise (OtherError "InvalidArgumentError")))
    demo_world =
    (Raise (OtherError "InvalidArgumentError"), demo_world).
Proof. split; vm_compute; reflexivity. Qed.

(** ** The exporter *)

Lemma makedirs_files (name : pystr) (fs0 fs' : os.filesystem) :
  os.makedirs name fs0 = Ok fs' -> os.files fs' = os.files fs0.
Proof.
  unfold os.makedirs. destruct name as [|c name]; [discriminate|].
  destruct (existsb _ _); [discriminate|]. now intros [= <-].
Qed.

Lemma write_file_files (p : pystr) (data : pybytes) (fs0 fs' : os.filesystem) :
  os.write_file p data fs0 = Ok fs' ->
  os.files fs' = <[p := data]> (os.files fs0).
Proof.
  unfold os.write_file.
  destruct (negb (os.dir_exists fs0 (os.dirname p))); [discriminate|].
  destruct (bool_decide (p ∈ os.dirs fs0)); [discriminate|].
  now intros [= <-].
Qed.

(** C8.  When loading the saved model or converting it raises, the
    exporter stops with that exception having only printed its first
    line: the file system is the one it started with, so no artifact,
    partial or otherwise, has been written.  When both succeed, every
    file present afterwards is a file that was there before or the output
    file holding the complete converted model. *)
Theorem export_only_after_conversion (L : third_party) (w : world) :
  match conversion L w with
  | Raise e =>
      convert_to_tflite L w =
        (Raise e, mkWorld (fs w) (stdout w ++ [LoadingModel model_keras_path]))
  | Ok tflite_model =>
      forall p data,
        os.files (fs (snd (convert_to_tflite L w))) !! p = Some data ->
        os.files (fs w) !! p = Some data \/
        (p = tflite_output_path /\ data = tflite_model)
  end.
Proof.
  unfold conversion, convert_to_tflite, bindP, print, load_model, pure_call.
  cbn [fs stdout].
  destruct (os.read_file model_keras_path (fs w)) as [data|e]; [|reflexivity].
  cbn [bind].
  destruct (deserialize L data) as [model|e]; [|reflexivity].
  cbn [bind].
  destruct (from_keras_model L model) as [cv|e]; [|reflexivity].
  cbn [bind].
  destruct (convert L cv) as [tflite_model|e]; [|reflexivity].
  unfold fs_call. cbn [fs stdout].
  destruct (os.makedirs (os.dirname tflite_output_path) (fs w)) as [fs1|e] eqn:Em;
    [|intros p d Hp; now left].
  apply makedirs_files in Em. cbn [fs stdout].
  destruct (os.write_file tflite_output_path tflite_model fs1) as [fs2|e] eqn:Ew;
    cbn [fs snd]; intros p d Hp.
  - apply write_file_files in Ew. rewrite Ew, Em in Hp.
    destruct (decide (tflite_output_path = p)) as [<-|Hne].
    + rewrite lookup_insert_eq in Hp. right. split; congruence.
    + rewrite lookup_insert_ne in Hp by exact Hne. now left.
  - left. now rewrite <- Em.
Qed.

(** The exporter run where no model was saved: loading fails, the run
    stops there, nothing is created. *)
Lemma export_without_saved_model :
  conversion (demo_libs (Ok tt)) demo_world = Raise FileNotFoundError /\
  convert_to_tflite (demo_libs (Ok tt)) demo_world =
    (Raise FileNotFoundError,
     mkWorld (fs demo_world) [LoadingModel model_keras_path]).
Proof. split; vm_compute; reflexivity. Qed.

(** ** Instances of the conditional statements *)

Lemma featureExtraction_features_witness :
  urllib.urlparse_str nfkc_ascii (lit "https://user@tinyurl.com/a-b//c") =
    Ok (urllib.mkComponents (lit "https") (lit "user@tinyurl.com")
          (lit "/a-b//c") [] [] []) /\
  snd (featureExtraction nfkc_ascii (PStr (lit "https://user@tinyurl.com/a-b//c"))) =
    [16; 0; 1; 31; 2; 1; 1; 1; 0] /\
  exists have_ip have_at segments redirection https_domain tiny_url
         prefix_suffix,
    snd (featureExtraction nfkc_ascii
           (PStr (lit "https://user@tinyurl.com/a-b//c"))) =
      [len (lit "user@tinyurl.com"); have_ip; have_at;
       len (lit "https://user@tinyurl.com/a-b//c");
       len (List.filter (fun seg => negb (ipaddress.is_empty seg)) segments);
       redirection; https_domain; tiny_url; prefix_suffix] /\
    indicator have_ip
      (exists a, ipaddress.ip_address (PStr (lit "user@tinyurl.com")) = Ok a) /\
    indicator have_at (In 64%N (lit "https://user@tinyurl.com/a-b//c")) /\
    (join 47 segments = lit "/a-b//c" /\
     segments <> [] /\ Forall (fun seg => ~ In 47%N seg) segments) /\
    indicator redirection (substring (lit "//") (lit "/a-b//c")) /\
    indicator https_domain (substring (lit "https") (lit "https")) /\
    indicator tiny_url
      (substring (lit "tinyurl") (lit "user@tinyurl.com") \/
       substring (lit "bit.ly") (lit "user@tinyurl.com")) /\
    indicator prefix_suffix (In 45%N (lit "user@tinyurl.com")).
Proof.
  assert (Hp : urllib.urlparse_str nfkc_ascii
                 (lit "https://user@tinyurl.com/a-b//c") =
    Ok (urllib.mkComponents (lit "https") (lit "user@tinyurl.com")
          (lit "/a-b//c") [] [] [])) by (vm_compute; reflexivity).
  split; [exact Hp|]. split; [vm_compute; reflexivity|].
  exact (featureExtraction_features nfkc_ascii _ _ Hp).
Defined.


(** * Further properties of the code *)

(** ** The extractor on values that are not text *)



(** ** The dataset builder: failures, shape and console *)

Lemma printed_lines (nfkc : pystr -> pystr) (urls : list pyval) :
  concat (map (fun url => fst (featureExtraction nfkc url)) urls) =
  map FailedToParse
    (List.filter (fun url => negb (is_ok (featureExtraction_try nfkc url))) urls).
Proof.
  induction urls as [|url urls IH]; [reflexivity|].
  cbn [map concat List.filter]. rewrite IH. unfold featureExtraction.
  destruct (featureExtraction_try nfkc url); reflexivity.
Qed.

Lemma featureExtraction_length (nfkc : pystr -> pystr) (url : pyval) :
  length (snd (featureExtraction nfkc url)) = 9%nat.
Proof.
  destruct (featureExtraction_cases nfkc url) as [(v & Hv & Hf)|(e & _ & Hf)];
    rewrite Hf; [|reflexivity].
  destruct (featureExtraction_try_ok_str _ _ _ Hv) as (u & r & -> & Hr).
  rewrite (featureExtraction_try_str _ _ _ Hr) in Hv. now injection Hv as <-.
Qed.

(** The two ways the builder ends. *)
Lemma build_dataset_cases (nfkc : pystr -> pystr) (L : third_party)
    (df : DataFrame) (w : world) :
  (exists urls labels,
     df !! lit "url" = Some urls /\ df !! lit "label" = Some labels /\
     build_dataset nfkc L df w =
       (Ok (map (fun url => map (np_float32 L) (snd (featureExtraction nfkc url)))
              urls, labels),
        mkWorld (fs w)
          (stdout w ++
           concat (map (fun url => fst (featureExtraction nfkc url)) urls)))) \/
  ((df !! lit "label" = None \/ df !! lit "url" = None) /\
   build_dataset nfkc L df w = (Raise KeyError, w)).
Proof.
  destruct (df !! lit "label") as [labels|] eqn:El.
  - destruct (df !! lit "url") as [urls|] eqn:Eu.
    + left. exists urls, labels. split; [reflexivity|]. split; [reflexivity|].
      now apply build_dataset_spec.
    + right. split; [now right|].
      unfold build_dataset, bindP, pure_call, pandas.getitem.
      now rewrite El, Eu.
  - right. split; [now left|].
    unfold build_dataset, bindP, pure_call, pandas.getitem. now rewrite El.
Qed.



(** X3.  When the builder returns, the matrix is rectangular with nine
    columns, the files are untouched, and the console has gained exactly
    one error line for each URL of the table on which the [try] body of
    the extractor raised, in table order, and nothing else. *)
Theorem build_dataset_shape_and_console (nfkc : pystr -> pystr)
    (L : third_party) (df : DataFrame) (w w' : world)
    (X : list (list (float32 L))) (y : list pyval) :
  build_dataset nfkc L df w = (Ok (X, y), w') ->
  Forall (fun row => length row = 9%nat) X /\
  fs w' = fs w /\
  exists urls,
    df !! lit "url" = Some urls /\
    length X = length urls /\
    stdout w' =
      stdout w ++
      map FailedToParse
        (List.filter (fun url => negb (is_ok (featureExtraction_try nfkc url)))
           urls).
Proof.
  intros H.
  destruct (build_dataset_cases nfkc L df w)
    as [(urls & labels & Hu & _ & Hrun)|(_ & Hrun)];
    rewrite Hrun in H; [|discriminate].
  injection H as <- <- <-. split.
  - apply List.Forall_forall. intros row Hrow.
    apply in_map_iff in Hrow as (url & <- & _).
    rewrite length_map. apply featureExtraction_length.
  - split; [reflexivity|]. exists urls. split; [exact Hu|].
    split; [apply length_map|]. cbn [stdout]. now rewrite printed_lines.
Qed.

Lemma build_dataset_shape_and_console_witness :
  let df : DataFrame :=
    <[lit "url" := [PStr (lit "http://b.com/x"); PNaN; PStr (lit "http://a]/")]]>
      (<[lit "label" := [PInt 1; PInt 0; PInt 1]]> ∅) in
  build_dataset nfkc_ascii (demo_libs (Ok tt)) df demo_world =
    (Ok ([[5; 0; 0; 14; 1; 0; 0; 0; 0]; zeros9; zeros9],
         [PInt 1; PInt 0; PInt 1]),
     mkWorld (fs demo_world)
       [FailedToParse PNaN; FailedToParse (PStr (lit "http://a]/"))]) /\
  Forall (fun row => length row = 9%nat)
    [[5; 0; 0; 14; 1; 0; 0; 0; 0]; zeros9; zeros9].
Proof.
  intros df.
  assert (H : build_dataset nfkc_ascii (demo_libs (Ok tt)) df demo_world =
    (Ok ([[5; 0; 0; 14; 1; 0; 0; 0; 0]; zeros9; zeros9],
         [PInt 1; PInt 0; PInt 1]),
     mkWorld (fs demo_world)
       [FailedToParse PNaN; FailedToParse (PStr (lit "http://a]/"))]))
    by (vm_compute; reflexivity).
  split; [exact H|].
  exact (proj1 (build_dataset_shape_and_console nfkc_ascii (demo_libs (Ok tt))
                  df demo_world _ _ _ H)).
Defined.

(** ** The training run: files and console *)





(** ** The exporter: when it succeeds, and running it again *)

Lemma path_prefixes_no_slash (before p : pystr) :
  ~ In 47%N p -> os.path_prefixes before p = [before ++ p].
Proof.
  revert before. induction p as [|c p IH]; intros before Hp; simpl.
  - now rewrite app_nil_r.
  - destruct (N.eqb_spec c 47) as [->|Hne]; [exfalso; apply Hp; now left|].
    rewrite IH; [now rewrite <- app_assoc|].
    intros Hin. apply Hp. now right.
Qed.

Lemma makedirs_single (name : pystr) (fs0 : os.filesystem) :
  name <> [] -> ~ In 47%N name ->
  os.makedirs name fs0 =
    if bool_decide (is_Some (os.files fs0 !! name))
    then Raise (OtherError "FileExistsError")
    else Ok (os.mkFs (os.dirs fs0 ∪ {[name]}) (os.files fs0)).
Proof.
  intros Hne Hs. unfold os.makedirs. destruct name as [|c name]; [contradiction|].
  rewrite (path_prefixes_no_slash [] _ Hs). cbn [app existsb list_to_set].
  rewrite orb_false_r, union_empty_r_L. reflexivity.
Qed.

Lemma model_save_no_slash : ~ In 47%N (lit "model_save").
Proof. rewrite <- has_char_In. vm_compute. discriminate. Qed.

(** The exporter, step by step: it stops at a failed load or conversion,
    at a regular file named [model_save], or at an output path that is a
    directory (the directory [model_save] has been created by then);
    otherwise it writes the output file. *)
Lemma convert_to_tflite_run (L : third_party) (w : world) :
  convert_to_tflite L w =
    let out1 := stdout w ++ [LoadingModel model_keras_path] in
    match conversion L w with
    | Raise e => (Raise e, mkWorld (fs w) out1)
    | Ok tflite_model =>
        if bool_decide (is_Some (os.files (fs w) !! lit "model_save"))
        then (Raise (OtherError "FileExistsError"), mkWorld (fs w) out1)
        else
          let dirs' := os.dirs (fs w) ∪ {[lit "model_save"]} in
          if bool_decide (tflite_output_path ∈ os.dirs (fs w))
          then (Raise (OtherError "IsADirectoryError"),
                mkWorld (os.mkFs dirs' (os.files (fs w))) out1)
          else (Ok tt,
                mkWorld
                  (os.mkFs dirs'
                     (<[tflite_output_path := tflite_model]> (os.files (fs w))))
                  (stdout w ++
                   [LoadingModel model_keras_path;
                    TFLiteCreated tflite_output_path]))
    end.
Proof.
  unfold conversion, convert_to_tflite, bindP, print, load_model, pure_call,
    fs_call.
  cbn [fs stdout].
  change (os.dirname tflite_output_path) with (lit "model_save").
  rewrite (makedirs_single (lit "model_save") (fs w));
    [|discriminate|exact model_save_no_slash].
  destruct (os.read_file model_keras_path (fs w)) as [data|e]; [|reflexivity].
  cbn [bind].
  destruct (deserialize L data) as [model|e]; [|reflexivity].
  cbn [bind].
  destruct (from_keras_model L model) as [cv|e]; [|reflexivity].
  cbn [bind].
  destruct (convert L cv) as [tflite_model|e]; [|reflexivity].
  destruct (bool_decide (is_Some (os.files (fs w) !! lit "model_save")));
    [reflexivity|].
  cbn [fs stdout]. unfold os.write_file. cbn [os.dirs os.files].
  change (os.dirname tflite_output_path) with (lit "model_save").
  assert (Hdir : os.dir_exists
            (os.mkFs (os.dirs (fs w) ∪ {[lit "model_save"]}) (os.files (fs w)))
            (lit "model_save") = true).
  { unfold os.dir_exists. cbn [os.dirs]. apply orb_true_iff. right.
    apply bool_decide_eq_true_2. apply elem_of_union. right.
    now apply elem_of_singleton. }
  rewrite Hdir. cbn [negb].
  assert (Hout : bool_decide
                   (tflite_output_path ∈ os.dirs (fs w) ∪ {[lit "model_save"]}) =
                 bool_decide (tflite_output_path ∈ os.dirs (fs w))).
  { apply bool_decide_ext. rewrite elem_of_union, elem_of_singleton.
    split; [|now left]. intros [H|H]; [exact H | discriminate]. }
  rewrite Hout.
  destruct (bool_decide (tflite_output_path ∈ os.dirs (fs w))); [reflexivity|].
  cbn [fs stdout]. now rewrite <- app_assoc.
Qed.


(** X7.  Running the exporter a second time after a successful run
    succeeds again and leaves the file system exactly as the first run
    left it: the saved model is not touched by the export, the directory
    exists by then, and the output file is rewritten with the same bytes. *)
Theorem export_twice (L : third_party) (w w1 : world) :
  convert_to_tflite L w = (Ok tt, w1) ->
  exists w2, convert_to_tflite L w1 = (Ok tt, w2) /\ fs w2 = fs w1.
Proof.
  intros H. rewrite convert_to_tflite_run in H. cbv zeta in H.
  destruct (conversion L w) as [b|e] eqn:Hb; [|discriminate].
  destruct (os.files (fs w) !! lit "model_save") as [blocker|] eqn:Hfile.
  { rewrite bool_decide_eq_true_2 in H by (now exists blocker). discriminate. }
  rewrite bool_decide_eq_false_2 in H by (intros [x Hx]; discriminate).
  destruct (decide (tflite_output_path ∈ os.dirs (fs w))) as [Hin|Hdir].
  { rewrite bool_decide_eq_true_2 in H by exact Hin. discriminate. }
  rewrite bool_decide_eq_false_2 in H by exact Hdir.
  injection H as <-.
  rewrite convert_to_tflite_run. cbv zeta. cbn [fs os.dirs os.files stdout].
  assert (Hb' : conversion L
                  (mkWorld
                     (os.mkFs (os.dirs (fs w) ∪ {[lit "model_save"]})
                        (<[tflite_output_path := b]> (os.files (fs w))))
                     (stdout w ++
                      [LoadingModel model_keras_path;
                       TFLiteCreated tflite_output_path])) = Ok b).
  { unfold conversion, os.read_file in *. cbn [fs os.files].
    rewrite lookup_insert_ne by discriminate. exact Hb. }
  rewrite Hb'.
  rewrite lookup_insert_ne by discriminate. rewrite Hfile.
  rewrite bool_decide_eq_false_2 by (intros [x Hx]; discriminate).
  rewrite bool_decide_eq_false_2.
  2:{ rewrite elem_of_union, elem_of_singleton.
      intros [Hin|Heq]; [contradiction | discriminate]. }
  eexists. split; [reflexivity|]. cbn [fs]. f_equal.
  - now rewrite <- union_assoc_L, union_idemp_L.
  - apply insert_insert_eq.
Qed.

Lemma export_twice_witness :
  let w := mkWorld (os.mkFs ∅ {[ model_keras_path := lit "keras" ]}) [] in
  exists w1,
    convert_to_tflite (demo_libs (Ok tt)) w = (Ok tt, w1) /\
    os.files (fs w1) !! tflite_output_path = Some (lit "tflite") /\
    exists w2,
      convert_to_tflite (demo_libs (Ok tt)) w1 = (Ok tt, w2) /\ fs w2 = fs w1.
Proof.
  intros w. exists (snd (convert_to_tflite (demo_libs (Ok tt)) w)).
  assert (H : convert_to_tflite (demo_libs (Ok tt)) w =
                (Ok tt, snd (convert_to_tflite (demo_libs (Ok tt)) w)))
    by (vm_compute; reflexivity).
  split; [exact H|]. split; [vm_compute; reflexivity|].
  exact (export_twice (demo_libs (Ok tt)) w _ H).
Defined.

(** ** Training, then exporting *)



(** ** The extractor: relations between the features *)

Lemma featureExtraction_try_str_raise (nfkc : pystr -> pystr) (u : pystr)
    (e : pyexn) :
  urllib.urlparse_str nfkc u = Raise e ->
  featureExtraction nfkc (PStr u) = ([FailedToParse (PStr u)], zeros9).
Proof.
  intros H. unfold featureExtraction, featureExtraction_try, urllib.urlparse.
  now rewrite H.
Qed.

Lemma featureExtraction_str_ok (nfkc : pystr -> pystr) (u : pystr)
    (r : urllib.components) :
  urllib.urlparse_str nfkc u = Ok r ->
  snd (featureExtraction nfkc (PStr u)) =
    [len (urllib.c_netloc r);
     b2z (is_ok (ipaddress.ip_address (PStr (urllib.c_netloc r))));
     b2z (contains (lit "@") u);
     len u;
     len (List.filter (fun x => negb (str_eqb x []))
            (split_on 47 (urllib.c_path r)));
     b2z (contains (lit "//") (urllib.c_path r));
     b2z (contains (lit "https") (urllib.c_scheme r));
     b2z (contains (lit "tinyurl") (urllib.c_netloc r)
          || contains (lit "bit.ly") (urllib.c_netloc r));
     b2z (contains (lit "-") (urllib.c_netloc r))].
Proof.
  intros H. unfold featureExtraction.
  now rewrite (featureExtraction_try_str _ _ _ H).
Qed.

Lemma contains_false_not_substring (sub s : pystr) :
  ~ substring sub s -> contains sub s = false.
Proof.
  intros H. destruct (contains sub s) eqn:E; [|reflexivity].
  exfalso. apply H. now apply contains_substring.
Qed.

(** X9.  When the authority of an accepted URL has no ['%'] and
    [have_ip] is 1, the authority consists of hexadecimal digits, colons
    and dots only (so it has no userinfo, no brackets and no port), and
    the flags [tiny_url] and [prefix_suffix] are both 0. *)
Theorem have_ip_excludes_other_domain_flags (nfkc : pystr -> pystr)
    (url : pystr) (r : urllib.components) :
  urllib.urlparse_str nfkc url = Ok r ->
  ~ In 37%N (urllib.c_netloc r) ->
  nth 1 (snd (featureExtraction nfkc (PStr url))) 0 = 1 ->
  (forall c, In c (urllib.c_netloc r) ->
     ipaddress.is_hex_digit c = true \/ c = 58%N \/ c = 46%N) /\
  nth 7 (snd (featureExtraction nfkc (PStr url))) 0 = 0 /\
  nth 8 (snd (featureExtraction nfkc (PStr url))) 0 = 0.
Proof.
  intros Hr Hpc. rewrite (featureExtraction_str_ok _ _ _ Hr). cbn [nth].
  destruct (ipaddress.ip_address (PStr (urllib.c_netloc r))) as [a|e] eqn:Eip;
    [|discriminate].
  intros _. destruct (ip_address_chars _ _ Hpc Eip) as (Hch & _).
  assert (Hbad : forall c, ipaddress.is_hex_digit c = false -> c <> 58%N ->
            c <> 46%N -> ~ In c (urllib.c_netloc r)).
  { intros c H1 H2 H3 Hin. destruct (Hch c Hin) as [?|[?|?]]; congruence. }
  split; [exact Hch|].
  assert (Ht : forall sub c, In c sub -> ipaddress.is_hex_digit c = false ->
            c <> 58%N -> c <> 46%N ->
            contains sub (urllib.c_netloc r) = false).
  { intros sub c Hc H1 H2 H3. apply contains_false_not_substring.
    intros (l & t & Heq). apply (Hbad c H1 H2 H3). rewrite Heq.
    apply in_or_app. right. apply in_or_app. now left. }
  assert (H1 : contains (lit "tinyurl") (urllib.c_netloc r) = false).
  { apply (Ht _ 116%N); [|reflexivity|discriminate|discriminate].
    rewrite <- has_char_In. reflexivity. }
  assert (H2 : contains (lit "bit.ly") (urllib.c_netloc r) = false).
  { apply (Ht _ 105%N); [|reflexivity|discriminate|discriminate].
    rewrite <- has_char_In. reflexivity. }
  assert (H3 : contains (lit "-") (urllib.c_netloc r) = false).
  { apply (Ht _ 45%N); [|reflexivity|discriminate|discriminate].
    rewrite <- has_char_In. reflexivity. }
  rewrite H1, H2, H3. split; reflexivity.
Qed.

Lemma have_ip_excludes_other_domain_flags_witness :
  urllib.urlparse_str nfkc_ascii (lit "http://192.168.0.1/tinyurl-x") =
    Ok (urllib.mkComponents (lit "http") (lit "192.168.0.1")
          (lit "/tinyurl-x") [] [] []) /\
  snd (featureExtraction nfkc_ascii (PStr (lit "http://192.168.0.1/tinyurl-x"))) =
    [11; 1; 0; 28; 1; 0; 0; 0; 0] /\
  (forall c, In c (lit "192.168.0.1") ->
     ipaddress.is_hex_digit c = true \/ c = 58%N \/ c = 46%N).
Proof.
  assert (Hp : urllib.urlparse_str nfkc_ascii (lit "http://192.168.0.1/tinyurl-x") =
    Ok (urllib.mkComponents (lit "http") (lit "192.168.0.1")
          (lit "/tinyurl-x") [] [] [])) by (vm_compute; reflexivity).
  split; [exact Hp|]. split; [vm_compute; reflexivity|].
  refine (proj1 (have_ip_excludes_other_domain_flags nfkc_ascii _ _ Hp _ _)).
  - cbn [urllib.c_netloc]. rewrite <- has_char_In. vm_compute. discriminate.
  - vm_compute. reflexivity.
Defined.

(** ** The extractor: leading blanks *)

Lemma lstrip_app_all (P : N -> bool) (ws s : pystr) :
  forallb P ws = true -> lstrip P (ws ++ s) = lstrip P s.
Proof.
  induction ws as [|c ws IH]; [reflexivity|]. simpl.
  intros H. apply andb_true_iff in H as (-> & H). now apply IH.
Qed.

Lemma urlparse_str_leading_blanks (nfkc : pystr -> pystr) (ws url : pystr) :
  forallb urllib.is_c0_control_or_space ws = true ->
  urllib.urlparse_str nfkc (ws ++ url) = urllib.urlparse_str nfkc url.
Proof.
  intros H. unfold urllib.urlparse_str, urllib.urlsplit.
  now rewrite (lstrip_app_all _ _ _ H).
Qed.

(** X10.  Leading blanks and control characters (code points up to
    U+0020) are dropped by the parser but counted in the raw URL: putting
    them in front of a URL leaves every feature as it is except
    [url_length], which, when the URL parses, grows by their number;
    whether the extraction falls back does not change. *)
Theorem featureExtraction_leading_blanks (nfkc : pystr -> pystr)
    (ws url : pystr) :
  forallb urllib.is_c0_control_or_space ws = true ->
  (forall i, i <> 3%nat ->
     nth i (snd (featureExtraction nfkc (PStr (ws ++ url)))) 0 =
     nth i (snd (featureExtraction nfkc (PStr url))) 0) /\
  (is_ok (urllib.urlparse_str nfkc url) = true ->
     nth 3 (snd (featureExtraction nfkc (PStr (ws ++ url)))) 0 =
     nth 3 (snd (featureExtraction nfkc (PStr url))) 0 + len ws) /\
  is_ok (featureExtraction_try nfkc (PStr (ws ++ url))) =
    is_ok (featureExtraction_try nfkc (PStr url)).
Proof.
  intros Hws. pose proof (urlparse_str_leading_blanks nfkc ws url Hws) as Hp.
  destruct (urllib.urlparse_str nfkc url) as [r|e] eqn:Er.
  - rewrite (featureExtraction_str_ok _ _ _ Hp),
      (featureExtraction_str_ok _ _ _ Er),
      (featureExtraction_try_str _ _ _ Hp), (featureExtraction_try_str _ _ _ Er).
    assert (Hat : contains (lit "@") (ws ++ url) = contains (lit "@") url).
    { apply eq_true_iff_eq. change (lit "@") with [64%N].
      rewrite !contains_char, in_app_iff. split; [|now right].
      intros [Hin|Hin]; [|exact Hin]. rewrite forallb_forall in Hws.
      apply Hws in Hin. discriminate. }
    rewrite Hat. split; [|split; [|reflexivity]].
    + intros i Hi. do 9 (destruct i as [|i]; [reflexivity || contradiction|]).
      reflexivity.
    + intros _. cbn [nth]. unfold len. rewrite length_app. lia.
  - rewrite (featureExtraction_try_str_raise _ _ _ Hp),
      (featureExtraction_try_str_raise _ _ _ Er).
    unfold featureExtraction_try, urllib.urlparse. rewrite Hp, Er.
    split; [reflexivity|]. split; [discriminate | reflexivity].
Qed.

Lemma featureExtraction_leading_blanks_witness :
  forallb urllib.is_c0_control_or_space (lit "  ") = true /\
  snd (featureExtraction nfkc_ascii (PStr (lit "http://a-b.com/x"))) =
    [7; 0; 0; 16; 1; 0; 0; 0; 1] /\
  snd (featureExtraction nfkc_ascii (PStr (lit "  " ++ lit "http://a-b.com/x"))) =
    [7; 0; 0; 18; 1; 0; 0; 0; 1] /\
  (forall i, i <> 3%nat ->
     nth i (snd (featureExtraction nfkc_ascii
                   (PStr (lit "  " ++ lit "http://a-b.com/x")))) 0 =
     nth i (snd (featureExtraction nfkc_ascii (PStr (lit "http://a-b.com/x")))) 0).
Proof.
  assert (H : forallb urllib.is_c0_control_or_space (lit "  ") = true)
    by reflexivity.
  split; [exact H|]. split; [vm_compute; reflexivity|].
  split; [vm_compute; reflexivity|].
  exact (proj1 (featureExtraction_leading_blanks nfkc_ascii _ _ H)).
Defined.

(** ** How [urlsplit] cuts a URL *)

Lemma partition_fst_if (c : N) (s : pystr) :
  fst (if has_char c s
       then let '(u, _, f) := partition c s in (u, f)
       else (s, [])) = fst (fst (partition c s)).
Proof.
  destruct (has_char c s) eqn:E.
  - now destruct (partition c s) as [[u found] f].
  - rewrite partition_absent; [reflexivity|].
    intros Hin. apply has_char_In in Hin. congruence.
Qed.

(** The steps of [urlsplit] on a URL it accepts: the text is cleaned, a
    scheme is cut off, an authority is cut off when ["//"] follows, and
    the path is what comes before the first ['#'] and ['?']. *)
Lemma urlsplit_structure (nfkc : pystr -> pystr) (url : pystr)
    (r : urllib.components) :
  urllib.urlsplit nfkc url = Ok r ->
  let u1 := fold_left (fun u b => remove_char b u)
              urllib.UNSAFE_URL_BYTES_TO_REMOVE
              (lstrip urllib.is_c0_control_or_space url) in
  let i := find 58 u1 in
  exists u2 rest,
    (urllib.c_scheme r, u2) =
      (if (i >? 0) && is_ascii_char (List.hd 0%N u1)
          && is_ascii_alpha (List.hd 0%N u1)
       then if forallb (fun c => has_char c urllib.scheme_chars) (slice_to i u1)
            then (lower (slice_to i u1), slice_from (i + 1) u1)
            else ([], u1)
       else ([], u1)) /\
    (if str_eqb (slice_to 2 u2) (lit "//")
     then (urllib.c_netloc r, rest) = urllib.splitnetloc u2 2
     else urllib.c_netloc r = [] /\ rest = u2) /\
    urllib.c_path r = fst (fst (partition 63 (fst (fst (partition 35 rest))))).
Proof.
  intros H u1 i. unfold urllib.urlsplit in H. fold u1 in H. fold i in H.
  destruct (if (i >? 0) && is_ascii_char (List.hd 0%N u1)
               && is_ascii_alpha (List.hd 0%N u1)
            then if forallb (fun c => has_char c urllib.scheme_chars)
                      (slice_to i u1)
                 then (lower (slice_to i u1), slice_from (i + 1) u1)
                 else ([], u1)
            else ([], u1)) as [scheme u2] eqn:Es.
  exists u2.
  assert (Hfin : forall netloc rest,
            (let '(url0, fragment) :=
               if has_char 35 rest
               then let '(u, _, f) := partition 35 rest in (u, f)
               else (rest, []) in
             let '(url1, query) :=
               if has_char 63 url0
               then let '(u, _, q) := partition 63 url0 in (u, q)
               else (url0, []) in
             let! _ := urllib.checknetloc nfkc netloc in
             Ok (urllib.mkComponents scheme netloc url1 [] query fragment)) =
            Ok r ->
            urllib.c_scheme r = scheme /\ urllib.c_netloc r = netloc /\
            urllib.c_path r =
              fst (fst (partition 63 (fst (fst (partition 35 rest)))))).
  { intros netloc rest Hr.
    rewrite <- (partition_fst_if 35 rest).
    destruct (if has_char 35 rest
              then let '(u, _, f) := partition 35 rest in (u, f)
              else (rest, [])) as [url0 fragment].
    cbn [fst]. rewrite <- (partition_fst_if 63 url0).
    destruct (if has_char 63 url0
              then let '(u, _, q) := partition 63 url0 in (u, q)
              else (url0, [])) as [url1' query].
    destruct (urllib.checknetloc nfkc netloc); [|discriminate].
    cbn [bind] in Hr. injection Hr as <-. now repeat split. }
  destruct (str_eqb (slice_to 2 u2) (lit "//")) eqn:Eslash.
  - destruct (urllib.splitnetloc u2 2) as [netloc rest] eqn:Enet.
    destruct (has_char 91 netloc && negb (has_char 93 netloc)
              || has_char 93 netloc && negb (has_char 91 netloc));
      [discriminate|].
    destruct (if has_char 91 netloc && has_char 93 netloc
              then urllib.check_bracketed_netloc netloc
              else Ok tt); [|discriminate].
    cbn [bind] in H. apply Hfin in H as (Hs & Hn & Hp).
    exists rest. rewrite Hs, Hn. now repeat split.
  - cbn [bind] in H. apply Hfin in H as (Hs & Hn & Hp).
    exists u2. rewrite Hs. now repeat split.
Qed.

Lemma length_lstrip (P : N -> bool) (s : pystr) :
  (length (lstrip P s) <= length s)%nat.
Proof.
  induction s as [|c s IH]; [reflexivity|]. simpl.
  destruct (P c); simpl; lia.
Qed.

Lemma length_remove_chars (cs : list N) (s : pystr) :
  (length (fold_left (fun u b => remove_char b u) cs s) <= length s)%nat.
Proof.
  revert s. induction cs as [|c cs IH]; intros s; [reflexivity|]. simpl.
  etransitivity; [apply IH|]. apply List.filter_length_le.
Qed.

Lemma length_partition_fst (c : N) (s : pystr) :
  (length (fst (fst (partition c s))) <= length s)%nat.
Proof.
  induction s as [|a s IH]; [reflexivity|]. simpl.
  destruct (a =? c)%N; [simpl; lia|].
  destruct (partition c s) as [[b found] t]. simpl in *. lia.
Qed.

Lemma length_splitnetloc (u : pystr) (start : Z) :
  (length (fst (urllib.splitnetloc u start)) +
   length (snd (urllib.splitnetloc u start)) <= length u)%nat.
Proof.
  unfold urllib.splitnetloc, urllib.slice, slice_from. cbn [fst snd].
  rewrite !length_skipn, length_firstn. lia.
Qed.

Lemma length_splitparams_fst (u : pystr) :
  (length (fst (urllib.splitparams u)) <= length u)%nat.
Proof.
  unfold urllib.splitparams, slice_to.
  destruct (has_char 47 u); [destruct (_ <? 0)|]; cbn [fst];
    rewrite ?length_firstn; lia.
Qed.

(** In an accepted URL the authority and the path are disjoint pieces of
    the raw text. *)
Lemma urlparse_str_lengths (nfkc : pystr -> pystr) (url : pystr)
    (r : urllib.components) :
  urllib.urlparse_str nfkc url = Ok r ->
  (length (urllib.c_netloc r) + length (urllib.c_path r) <= length url)%nat.
Proof.
  unfold urllib.urlparse_str.
  destruct (urllib.urlsplit nfkc url) as [sr|e] eqn:Es; [|discriminate].
  cbn [bind]. intros Hr.
  assert (Hsr : (length (urllib.c_netloc sr) + length (urllib.c_path sr)
                 <= length url)%nat).
  { destruct (urlsplit_structure _ _ _ Es) as (u2 & rest & Hsch & Hnet & Hpath).
    set (u1 := fold_left _ _ _) in *.
    assert (H1 : (length u1 <= length url)%nat).
    { subst u1. etransitivity; [apply length_remove_chars | apply length_lstrip]. }
    assert (H2 : (length u2 <= length u1)%nat).
    { destruct (_ && _ && _) in Hsch; [destruct (forallb _ _) in Hsch|];
        injection Hsch as _ ->; unfold slice_from; rewrite ?length_skipn; lia. }
    assert (H3 : (length (urllib.c_netloc sr) + length rest <= length u2)%nat).
    { destruct (str_eqb _ _) in Hnet.
      - pose proof (length_splitnetloc u2 2) as Hl. rewrite <- Hnet in Hl.
        exact Hl.
      - destruct Hnet as (-> & ->). simpl. lia. }
    rewrite Hpath.
    pose proof (length_partition_fst 63 (fst (fst (partition 35 rest)))).
    pose proof (length_partition_fst 35 rest). lia. }
  destruct (existsb _ _ && _) in Hr.
  - pose proof (length_splitparams_fst (urllib.c_path sr)) as Hl.
    destruct (urllib.splitparams (urllib.c_path sr)) as [p params].
    injection Hr as <-. cbn [urllib.c_netloc urllib.c_path fst] in *. lia.
  - injection Hr as <-. exact Hsr.
Qed.

Lemma count_segments_le (c : N) (s : pystr) :
  (length (List.filter (fun x => negb (str_eqb x [])) (split_on c s))
   <= length s)%nat.
Proof.
  induction s as [|a s IH]; [simpl; lia|]. simpl.
  destruct (a =? c)%N; [simpl; lia|].
  destruct (split_on c s) as [|seg segs]; [simpl; lia|].
  cbn [List.filter str_eqb negb length] in *.
  destruct seg; cbn [str_eqb negb length] in *; lia.
Qed.

(** X11.  On every input the vector returned satisfies
    [0 <= domain_length], [0 <= url_depth] and
    [domain_length + url_depth <= url_length]: the authority and the path
    segments that are counted are disjoint pieces of the raw URL. *)
Theorem featureExtraction_length_bounds (nfkc : pystr -> pystr) (url : pyval) :
  let v := snd (featureExtraction nfkc url) in
  0 <= nth 0 v 0 /\ 0 <= nth 4 v 0 /\ nth 0 v 0 + nth 4 v 0 <= nth 3 v 0.
Proof.
  intros v. subst v.
  destruct (featureExtraction_cases nfkc url) as [(v & Hv & Hf)|(e & _ & Hf)];
    rewrite Hf; [|cbn; lia].
  destruct (featureExtraction_try_ok_str _ _ _ Hv) as (u & r & -> & Hr).
  rewrite (featureExtraction_try_str _ _ _ Hr) in Hv. injection Hv as <-.
  cbn [snd nth]. unfold len.
  pose proof (urlparse_str_lengths _ _ _ Hr).
  pose proof (count_segments_le 47 (urllib.c_path r)). lia.
Qed.

(** ** The extractor: the scheme *)

(** [urlparse] keeps the scheme and the authority of [urlsplit]; the path
    is the one of [urlsplit] or a prefix of it (parameters cut off). *)
Lemma urlparse_str_inv (nfkc : pystr -> pystr) (url : pystr)
    (r : urllib.components) :
  urllib.urlparse_str nfkc url = Ok r ->
  exists sr,
    urllib.urlsplit nfkc url = Ok sr /\
    urllib.c_scheme r = urllib.c_scheme sr /\
    urllib.c_netloc r = urllib.c_netloc sr /\
    exists t, urllib.c_path sr = urllib.c_path r ++ t.
Proof.
  unfold urllib.urlparse_str.
  destruct (urllib.urlsplit nfkc url) as [sr|e]; [|discriminate].
  cbn [bind]. intros H. exists sr. split; [reflexivity|].
  destruct (existsb _ _ && _) in H.
  - assert (Hp : exists t,
              urllib.c_path sr = fst (urllib.splitparams (urllib.c_path sr)) ++ t).
    { unfold urllib.splitparams, slice_to.
      destruct (has_char 47 _); [destruct (_ <? 0)|]; cbn [fst];
        first [ exists []; now rewrite app_nil_r
              | eexists; symmetry; apply firstn_skipn ]. }
    destruct (urllib.splitparams (urllib.c_path sr)) as [p params].
    injection H as <-. now repeat split.
  - injection H as <-. repeat split. exists []. now rewrite app_nil_r.
Qed.

Lemma scheme_char_facts (c : N) :
  has_char c urllib.scheme_chars = true ->
  c <> 58%N /\ c <> 9%N /\ c <> 13%N /\ c <> 10%N.
Proof.
  intros H. repeat split; intros ->; vm_compute in H; discriminate.
Qed.

Lemma remove_chars_prefix (cs : list N) (s rest : pystr) (c : N) :
  (forall b, In b cs -> ~ In b s /\ b <> c) ->
  fold_left (fun u b => remove_char b u) cs (s ++ c :: rest) =
  s ++ c :: fold_left (fun u b => remove_char b u) cs rest.
Proof.
  revert rest. induction cs as [|b cs IH]; intros rest Hcs; [reflexivity|].
  cbn [fold_left].
  destruct (Hcs b (or_introl eq_refl)) as (Hb & Hbc).
  assert (Hrm : remove_char b (s ++ c :: rest) = s ++ c :: remove_char b rest).
  { unfold remove_char. rewrite List.filter_app. cbn [List.filter].
    destruct (N.eqb_spec c b) as [->|_]; [contradiction|]. cbn [negb].
    f_equal. apply forallb_filter_id. apply forallb_forall. intros x Hx.
    destruct (N.eqb_spec x b) as [->|_]; [contradiction | reflexivity]. }
  rewrite Hrm. apply IH. intros b' Hb'. apply Hcs. now right.
Qed.

Lemma find_from_app (c : N) (s rest : pystr) (k : Z) :
  ~ In c s -> find_from c (s ++ c :: rest) k = k + len s.
Proof.
  revert k. induction s as [|a s IH]; intros k Hs; simpl.
  - rewrite N.eqb_refl. unfold len. simpl. lia.
  - destruct (N.eqb_spec a c) as [->|_]; [exfalso; apply Hs; now left|].
    rewrite IH by (intros Hin; apply Hs; now right).
    unfold len. simpl length. lia.
Qed.

(** X12.  A URL that begins with a well-formed scheme (an ASCII letter,
    then letters, digits, [+], [-], [.]) followed by a colon is given that
    scheme in lower case by the parser, so [https_domain] is decided on
    the lower-cased scheme: [HTTPS:], [Https:] and [https:] all count. *)
Theorem scheme_is_lowercased (nfkc : pystr -> pystr) (s rest : pystr)
    (r : urllib.components) :
  is_ascii_alpha (List.hd 0%N s) = true ->
  forallb (fun c => has_char c urllib.scheme_chars) s = true ->
  urllib.urlparse_str nfkc (s ++ 58%N :: rest) = Ok r ->
  urllib.c_scheme r = lower s /\
  nth 6 (snd (featureExtraction nfkc (PStr (s ++ 58%N :: rest)))) 0 =
    b2z (contains (lit "https") (lower s)).
Proof.
  intros Halpha Hchars Hr.
  assert (Hsch : urllib.c_scheme r = lower s).
  { destruct (urlparse_str_inv _ _ _ Hr) as (sr & Hsr & -> & _).
    destruct (urlsplit_structure _ _ _ Hsr) as (u2 & rest' & Hs & _).
    destruct s as [|c0 s]; [discriminate|].
    rewrite forallb_forall in Hchars.
    assert (Hstrip : lstrip urllib.is_c0_control_or_space
                       ((c0 :: s) ++ 58%N :: rest) = (c0 :: s) ++ 58%N :: rest).
    { cbn [app lstrip List.hd] in *.
      replace (urllib.is_c0_control_or_space c0) with false; [reflexivity|].
      unfold is_ascii_alpha, urllib.is_c0_control_or_space in *.
      destruct (N.leb_spec c0 32); [|reflexivity].
      destruct (N.leb_spec 65 c0), (N.leb_spec 97 c0); try lia; discriminate. }
    rewrite Hstrip in Hs.
    rewrite (remove_chars_prefix _ (c0 :: s) rest 58) in Hs.
    2:{ intros b Hb. split.
        - intros Hin. apply Hchars, scheme_char_facts in Hin.
          destruct Hin as (_ & H9 & H13 & H10).
          destruct Hb as [<-|[<-|[<-|[]]]]; congruence.
        - destruct Hb as [<-|[<-|[<-|[]]]]; discriminate. }
    set (rest1 := fold_left _ _ rest) in Hs.
    assert (Hfind : find 58 ((c0 :: s) ++ 58%N :: rest1) = len (c0 :: s)).
    { unfold find. rewrite find_from_app; [lia|].
      intros Hin. apply Hchars, scheme_char_facts in Hin. tauto. }
    rewrite Hfind in Hs.
    assert (Hslice : slice_to (len (c0 :: s)) ((c0 :: s) ++ 58%N :: rest1)
                     = c0 :: s).
    { unfold slice_to, norm_index, len.
      destruct (Z.ltb_spec (Z.of_nat (length (c0 :: s))) 0); [lia|].
      rewrite Nat2Z.id. rewrite firstn_app, Nat.sub_diag, firstn_all.
      cbn [firstn]. apply app_nil_r. }
    rewrite Hslice in Hs.
    replace (forallb (fun c => has_char c urllib.scheme_chars) (c0 :: s))
      with true in Hs by (symmetry; now apply forallb_forall).
    replace (len (c0 :: s) >? 0) with true in Hs
      by (unfold len; simpl length; symmetry; apply Z.gtb_lt; lia).
    cbn [app List.hd andb] in Hs, Halpha. rewrite Halpha in Hs.
    replace (is_ascii_char c0) with true in Hs.
    2:{ unfold is_ascii_alpha, is_ascii_char in *. symmetry.
        apply N.ltb_lt.
        destruct (N.leb_spec c0 90), (N.leb_spec c0 122); try lia;
          rewrite ?andb_false_r in Halpha; discriminate. }
    cbn [andb] in Hs. now injection Hs as ->. }
  split; [exact Hsch|].
  rewrite (featureExtraction_str_ok _ _ _ Hr). cbn [nth]. now rewrite Hsch.
Qed.

Lemma scheme_is_lowercased_witness :
  is_ascii_alpha (List.hd 0%N (lit "HttpS")) = true /\
  forallb (fun c => has_char c urllib.scheme_chars) (lit "HttpS") = true /\
  urllib.urlparse_str nfkc_ascii (lit "HttpS" ++ 58%N :: lit "//Example.com/") =
    Ok (urllib.mkComponents (lit "https") (lit "Example.com") (lit "/") [] [] []) /\
  lower (lit "HttpS") = lit "https" /\
  nth 6 (snd (featureExtraction nfkc_ascii
                (PStr (lit "HttpS" ++ 58%N :: lit "//Example.com/")))) 0 = 1.
Proof.
  assert (H1 : is_ascii_alpha (List.hd 0%N (lit "HttpS")) = true) by reflexivity.
  assert (H2 : forallb (fun c => has_char c urllib.scheme_chars) (lit "HttpS")
               = true) by reflexivity.
  assert (H3 : urllib.urlparse_str nfkc_ascii
                 (lit "HttpS" ++ 58%N :: lit "//Example.com/") =
    Ok (urllib.mkComponents (lit "https") (lit "Example.com") (lit "/") [] [] []))
    by (vm_compute; reflexivity).
  split; [exact H1|]. split; [exact H2|]. split; [exact H3|].
  split; [reflexivity|].
  exact (proj2 (scheme_is_lowercased nfkc_ascii _ _ _ H1 H2 H3)).
Defined.

(** ** The extractor: URLs without ["//"] *)

Lemma str_eqb_eq (s t : pystr) : str_eqb s t = true -> s = t.
Proof.
  revert t. induction s as [|a s IH]; intros [|b t]; simpl; try discriminate;
    [reflexivity|].
  intros H. apply andb_true_iff in H as (Hab & Hst).
  apply N.eqb_eq in Hab. subst. f_equal. now apply IH.
Qed.

Lemma lstrip_suffix (P : N -> bool) (s : pystr) :
  exists pre, s = pre ++ lstrip P s.
Proof.
  induction s as [|c s (pre & IH)]; [now exists []|]. simpl.
  destruct (P c); [|now exists []].
  exists (c :: pre). simpl. now f_equal.
Qed.

Lemma remove_chars_absent (cs : list N) (s : pystr) :
  forallb (fun c => negb (has_char c cs)) s = true ->
  fold_left (fun u b => remove_char b u) cs s = s.
Proof.
  revert s. induction cs as [|b cs IH]; intros s Hs; [reflexivity|].
  cbn [fold_left]. rewrite forallb_forall in Hs.
  assert (Hrm : remove_char b s = s).
  { apply forallb_filter_id. apply forallb_forall. intros x Hx.
    specialize (Hs x Hx). cbn [has_char existsb] in Hs.
    now destruct (x =? b)%N. }
  rewrite Hrm. apply IH. apply forallb_forall. intros x Hx.
  specialize (Hs x Hx). cbn [has_char existsb] in Hs.
  unfold has_char. now destruct (x =? b)%N.
Qed.

Lemma no_double_slash_suffix (url pre u2 : pystr) :
  contains (lit "//") url = false -> url = pre ++ u2 ->
  str_eqb (slice_to 2 u2) (lit "//") = false.
Proof.
  intros Hc ->. destruct (str_eqb _ _) eqn:E; [|reflexivity].
  apply str_eqb_eq in E. exfalso.
  assert (Hsub : substring (lit "//") (pre ++ u2)).
  { exists pre, (skipn 2 u2). unfold slice_to in E.
    change (norm_index 2 u2) with 2%nat in E.
    now rewrite <- E, firstn_skipn. }
  apply contains_substring in Hsub. congruence.
Qed.

(** What [urlsplit] does after the authority step when there is no
    authority. *)
Lemma urlsplit_tail (nfkc : pystr -> pystr) (scheme u2 : pystr) :
  exists query fragment,
    (let '(url0, fragment) :=
       if has_char 35 u2
       then let '(u, _, f) := partition 35 u2 in (u, f)
       else (u2, []) in
     let '(url1, query) :=
       if has_char 63 url0
       then let '(u, _, q) := partition 63 url0 in (u, q)
       else (url0, []) in
     let! _ := urllib.checknetloc nfkc [] in
     Ok (urllib.mkComponents scheme [] url1 [] query fragment)) =
    Ok (urllib.mkComponents scheme []
          (fst (fst (partition 63 (fst (fst (partition 35 u2))))))
          [] query fragment).
Proof.
  rewrite <- (partition_fst_if 35 u2).
  destruct (if has_char 35 u2
            then let '(u, _, f) := partition 35 u2 in (u, f)
            else (u2, [])) as [url0 fragment].
  cbn [fst]. rewrite <- (partition_fst_if 63 url0).
  destruct (if has_char 63 url0
            then let '(u, _, q) := partition 63 url0 in (u, q)
            else (url0, [])) as [url1 query].
  now exists query, fragment.
Qed.

Lemma urlsplit_no_authority (nfkc : pystr -> pystr) (url : pystr) :
  contains (lit "//") url = false ->
  forallb (fun c => negb (has_char c urllib.UNSAFE_URL_BYTES_TO_REMOVE)) url
    = true ->
  exists sr pre u2,
    urllib.urlsplit nfkc url = Ok sr /\
    urllib.c_netloc sr = [] /\
    url = pre ++ u2 /\
    urllib.c_path sr = fst (fst (partition 63 (fst (fst (partition 35 u2))))).
Proof.
  intros Hc Hsafe. unfold urllib.urlsplit.
  destruct (lstrip_suffix urllib.is_c0_control_or_space url) as (pre1 & Hpre1).
  assert (Hclean : fold_left (fun u b => remove_char b u)
                     urllib.UNSAFE_URL_BYTES_TO_REMOVE
                     (lstrip urllib.is_c0_control_or_space url)
                   = lstrip urllib.is_c0_control_or_space url).
  { apply remove_chars_absent. rewrite Hpre1, forallb_app in Hsafe.
    now apply andb_true_iff in Hsafe. }
  rewrite Hclean. set (u1 := lstrip _ url) in *. set (i := find 58 u1).
  assert (Hgo : forall scheme pre u2, url = pre ++ u2 ->
            exists sr pre' u2',
              (let! nu := (if str_eqb (slice_to 2 u2) (lit "//")
                           then
                             let '(netloc, rest) := urllib.splitnetloc u2 2 in
                             if has_char 91 netloc && negb (has_char 93 netloc)
                                || has_char 93 netloc && negb (has_char 91 netloc)
                             then Raise ValueError
                             else
                               let! _ :=
                                 if has_char 91 netloc && has_char 93 netloc
                                 then urllib.check_bracketed_netloc netloc
                                 else Ok tt in
                               Ok (netloc, rest)
                           else Ok ([], u2)) in
               let '(netloc, url0) := nu in
               let '(url1, fragment) :=
                 if has_char 35 url0
                 then let '(u, _, f) := partition 35 url0 in (u, f)
                 else (url0, []) in
               let '(url2, query) :=
                 if has_char 63 url1
                 then let '(u, _, q) := partition 63 url1 in (u, q)
                 else (url1, []) in
               let! _ := urllib.checknetloc nfkc netloc in
               Ok (urllib.mkComponents scheme netloc url2 [] query fragment))
              = Ok sr /\
              urllib.c_netloc sr = [] /\ url = pre' ++ u2' /\
              urllib.c_path sr =
                fst (fst (partition 63 (fst (fst (partition 35 u2')))))).
  { intros scheme pre u2 Hu.
    rewrite (no_double_slash_suffix url pre u2 Hc Hu). cbn [bind].
    destruct (urlsplit_tail nfkc scheme u2) as (q & f & Ht).
    eexists _, pre, u2. split; [exact Ht|]. now repeat split. }
  destruct ((i >? 0) && is_ascii_char (List.hd 0%N u1)
            && is_ascii_alpha (List.hd 0%N u1));
    [destruct (forallb _ (slice_to i u1))|].
  - apply (Hgo _ (pre1 ++ firstn (norm_index (i + 1) u1) u1)).
    unfold slice_from. now rewrite <- app_assoc, firstn_skipn.
  - now apply (Hgo _ pre1).
  - now apply (Hgo _ pre1).
Qed.

Lemma partition_fst_prefix (c : N) (s : pystr) :
  exists t, s = fst (fst (partition c s)) ++ t.
Proof.
  pose proof (partition_spec c s) as (_ & H).
  destruct (partition c s) as [[b found] r]. cbn [fst snd] in *.
  destruct found.
  - now exists (c :: r).
  - destruct H as (-> & _). exists []. now rewrite app_nil_r.
Qed.

(** X13.  A URL without tab, carriage return or line feed in which
    ["//"] does not occur has no authority for the parser: the extraction
    does not fall back (nothing is printed), and [domain_length],
    [have_ip], [redirection], [tiny_url] and [prefix_suffix] are all 0,
    whatever the text is.  So a URL written without its scheme, such as
    ["bit.ly/x-y"], carries no domain signal. *)
Theorem no_double_slash_no_domain (nfkc : pystr -> pystr) (url : pystr) :
  contains (lit "//") url = false ->
  forallb (fun c => negb (has_char c urllib.UNSAFE_URL_BYTES_TO_REMOVE)) url
    = true ->
  exists have_at url_depth https_domain,
    featureExtraction nfkc (PStr url) =
      ([], [0; 0; have_at; len url; url_depth; 0; https_domain; 0; 0]).
Proof.
  intros Hc Hsafe.
  destruct (urlsplit_no_authority nfkc url Hc Hsafe)
    as (sr & pre & u2 & Hsr & Hnet & Hurl & Hpath).
  destruct (urllib.urlparse_str nfkc url) as [r|e] eqn:Er.
  2:{ unfold urllib.urlparse_str in Er. rewrite Hsr in Er. cbn [bind] in Er.
      destruct (existsb _ _ && _) in Er;
        [destruct (urllib.splitparams _)|]; discriminate. }
  destruct (urlparse_str_inv _ _ _ Er) as (sr' & Hsr' & _ & Hn & (t & Hp)).
  rewrite Hsr in Hsr'. injection Hsr' as <-.
  rewrite Hnet in Hn.
  assert (Hred : contains (lit "//") (urllib.c_path r) = false).
  { apply contains_false_not_substring. intros (l & t' & Hsub).
    destruct (partition_fst_prefix 35 u2) as (t1 & H1).
    destruct (partition_fst_prefix 63 (fst (fst (partition 35 u2))))
      as (t2 & H2).
    rewrite <- Hpath, Hp, Hsub in H2. rewrite H2 in H1. rewrite H1 in Hurl.
    assert (Hs : substring (lit "//") url).
    { exists (pre ++ l), (t' ++ t ++ t2 ++ t1). rewrite Hurl.
      now rewrite <- !app_assoc. }
    apply contains_substring in Hs. congruence. }
  unfold featureExtraction. rewrite (featureExtraction_try_str _ _ _ Er).
  rewrite Hn, Hred. eexists _, _, _. reflexivity.
Qed.

Lemma no_double_slash_no_domain_witness :
  contains (lit "//") (lit "bit.ly/x-y") = false /\
  forallb (fun c => negb (has_char c urllib.UNSAFE_URL_BYTES_TO_REMOVE))
    (lit "bit.ly/x-y") = true /\
  featureExtraction nfkc_ascii (PStr (lit "http://bit.ly/x-y")) =
    ([], [6; 0; 0; 17; 1; 0; 0; 1; 0]) /\
  featureExtraction nfkc_ascii (PStr (lit "bit.ly/x-y")) =
    ([], [0; 0; 0; 10; 2; 0; 0; 0; 0]) /\
  exists have_at url_depth https_domain,
    featureExtraction nfkc_ascii (PStr (lit "bit.ly/x-y")) =
      ([], [0; 0; have_at; len (lit "bit.ly/x-y"); url_depth; 0;
            https_domain; 0; 0]).
Proof.
  assert (H1 : contains (lit "//") (lit "bit.ly/x-y") = false) by reflexivity.
  assert (H2 : forallb
                 (fun c => negb (has_char c urllib.UNSAFE_URL_BYTES_TO_REMOVE))
                 (lit "bit.ly/x-y") = true) by reflexivity.
  split; [exact H1|]. split; [exact H2|].
  split; [vm_compute; reflexivity|]. split; [vm_compute; reflexivity|].
  exact (no_double_slash_no_domain nfkc_ascii _ H1 H2).
Defined.
